(** * SecureFeedback: registration service (Node.js / Express / mssql)

    Shallow embedding of the four source files of the repository:
    - the pool manager [getPool], which the repository holds in two
      versions: [db.js], and a version that drops a disconnected handle and
      retries the connection;
    - [routes/users.js]: the validation rules, [POST /api/users] and
      [GET /api/users];
    - the server entry point, [startServer].

    The libraries the code calls are modelled by what they do on the values
    the code passes them: [mssql] and the SQL Server statements in [Sql]
    and [query], express-validator in [ExpressValidator], [xss-filters] in
    [inHTMLData]; three functions of validator.js are parameters.

    JavaScript strings are sequences of UTF-16 code units; asynchronous
    functions are computations in a state-and-exception monad over a [World]
    that holds the module variable [pool], the database and the trace of
    observable events (connection attempts, timers, console lines, queries,
    [app.listen]). *)

From Stdlib Require Import List String Ascii NArith ZArith Bool Lia.
From Stdlib Require Import DecimalString Permutation Sorted.
Import ListNotations.

Set Implicit Arguments.

(** Lexicographic comparison of two sequences of numbers. *)
Fixpoint lex_compare (a b : list N) : comparison :=
  match a, b with
  | [], [] => Eq
  | [], _ :: _ => Lt
  | _ :: _, [] => Gt
  | x :: a', y :: b' =>
    match (x ?= y)%N with
    | Eq => lex_compare a' b'
    | c => c
    end
  end.

(* ================================================================= *)
(** ** JavaScript strings and primitive values *)

Module JS.

(** A JavaScript string: its UTF-16 code units. *)
Definition jsstring := list N.

(** Source literals are written as UTF-8 text; [u16] gives the code units
    the JavaScript engine holds for them. *)
Definition cont (a : ascii) : N := N.land (N_of_ascii a) 63.

Definition of_code_point (cp : N) : jsstring :=
  if (cp <? 65536)%N then [cp]
  else let c := (cp - 65536)%N in
       [(55296 + N.shiftr c 10)%N; (56320 + N.land c 1023)%N].

Fixpoint u16 (s : string) : jsstring :=
  match s with
  | EmptyString => []
  | String a r1 =>
    let b := N_of_ascii a in
    if (b <? 128)%N then b :: u16 r1
    else match r1 with
    | EmptyString => [b]
    | String a1 r2 =>
      if (b <? 224)%N then
        (N.shiftl (N.land b 31) 6 + cont a1)%N :: u16 r2
      else match r2 with
      | EmptyString => [b]
      | String a2 r3 =>
        if (b <? 240)%N then
          (N.shiftl (N.land b 15) 12 + N.shiftl (cont a1) 6 + cont a2)%N
            :: u16 r3
        else match r3 with
        | EmptyString => [b]
        | String a3 r4 =>
          of_code_point
            (N.shiftl (N.land b 7) 18 + N.shiftl (cont a1) 12
             + N.shiftl (cont a2) 6 + cont a3)%N ++ u16 r4
        end
      end
    end
  end.

Definition jsstring_eqb (a b : jsstring) : bool :=
  if list_eq_dec N.eq_dec a b then true else false.

(** Ordinal comparison of two strings, code unit by code unit. *)
Definition compare : jsstring -> jsstring -> comparison := lex_compare.

(** The class [\s] of regular expressions, which is also the set of code
    units that [String.prototype.trim] strips. *)
Definition is_space (c : N) : bool :=
  ((9 <=? c) && (c <=? 13) || (c =? 32) || (c =? 160) || (c =? 5760)
   || (8192 <=? c) && (c <=? 8202) || (c =? 8232) || (c =? 8233)
   || (c =? 8239) || (c =? 8287) || (c =? 12288) || (c =? 65279))%N.

(** The class [\d]. *)
Definition is_digit (c : N) : bool := ((48 <=? c) && (c <=? 57))%N.

Fixpoint ltrim (s : jsstring) : jsstring :=
  match s with
  | c :: r => if is_space c then ltrim r else s
  | [] => []
  end.

Definition trim (s : jsstring) : jsstring := rev (ltrim (rev (ltrim s))).

(** Decimal text of an integer, as [String(n)] prints it when the integer
    is one that a double holds exactly (below 2^53 in absolute value);
    beyond that a double prints the shortest text that reads back to it,
    which this definition does not do. *)
Definition dec (z : Z) : jsstring := u16 (NilZero.string_of_int (Z.to_int z)).

(** The primitive values a parsed body field can hold; numbers are
    integers, and arrays and objects are left out: a property stated for
    every value of this type says nothing of a field sent as an array. *)
Inductive value :=
| VUndefined
| VNull
| VBool (b : bool)
| VNum (z : Z)
| VStr (s : jsstring).

(** [ToBoolean]: the falsy values are [undefined], [null], [false], [0]
    and the empty string. *)
Definition truthy (v : value) : bool :=
  match v with
  | VUndefined | VNull => false
  | VBool b => b
  | VNum z => negb (z =? 0)%Z
  | VStr s => match s with [] => false | _ => true end
  end.

Definition falsy (v : value) : bool := negb (truthy v).

End JS.

Import JS.

(* ================================================================= *)
(** ** The database: table [usuarios] and the three statements *)

(** A [DATETIME] value. *)
Record DateTime := mkDateTime {
  year : N; month : N; day : N; hour : N; minute : N; second : N; milli : N
}.

Definition chrono_key (t : DateTime) : list N :=
  [year t; month t; day t; hour t; minute t; second t; milli t].

(** [later a b]: [a] is strictly more recent than [b]. *)
Definition later (a b : DateTime) : bool :=
  match lex_compare (chrono_key a) (chrono_key b) with Gt => true | _ => false end.

Definition digit (n : N) : N := (48 + n mod 10)%N.
Definition digits2 (n : N) : jsstring := [digit (n / 10); digit n].
Definition digits4 (n : N) : jsstring :=
  [digit (n / 1000); digit (n / 100); digit (n / 10); digit n].

(** [FORMAT(t, 'dd/MM/yyyy HH:mm')]: an [NVARCHAR], two digits for the
    day, the month, the hour and the minute, four for the year, with the
    separators [/] and [:] of the default session language. *)
Definition FORMAT_ddMMyyyy_HHmm (t : DateTime) : jsstring :=
  digits2 (day t) ++ u16 "/" ++ digits2 (month t) ++ u16 "/"
  ++ digits4 (year t) ++ u16 " " ++ digits2 (hour t) ++ u16 ":"
  ++ digits2 (minute t).

(** What a rejected promise or a [throw] carries: [message], and [number]
    for the errors the database raises ([undefined] otherwise). *)
Record JsError := mkError { err_message : jsstring; err_number : option Z }.

Module Sql.

(** A row of
    [CREATE TABLE usuarios (id INT IDENTITY(1,1) PRIMARY KEY,
       nombre NVARCHAR(100) NOT NULL, apellido NVARCHAR(100) NOT NULL,
       email NVARCHAR(255) NOT NULL UNIQUE, telefono NVARCHAR(20),
       pais NVARCHAR(100), fecha_registro DATETIME DEFAULT GETDATE())];
    [None] in a nullable column is SQL NULL. *)
Record usuario := mkUsuario {
  id : Z;
  nombre : jsstring;
  apellido : jsstring;
  email : jsstring;
  telefono : option jsstring;
  pais : option jsstring;
  fecha_registro : DateTime
}.

(** The database: the table (absent until it is created) and the next
    value of the identity column. *)
Record database := mkDatabase {
  usuarios : option (list usuario);
  identity : Z
}.

Definition empty : database := mkDatabase None 1.

(** The three statements the program sends. *)
Inductive statement :=
| CreateTableIfNotExists
| InsertUsuario (nombre apellido email : jsstring) (telefono pais : option jsstring)
| SelectUsuarios.

(** A row of the listing: the select list
    [id, nombre, apellido, email, telefono, pais,
     FORMAT(fecha_registro, 'dd/MM/yyyy HH:mm') as fecha_registro]. *)
Record fila := mkFila {
  f_id : Z;
  f_nombre : jsstring;
  f_apellido : jsstring;
  f_email : jsstring;
  f_telefono : option jsstring;
  f_pais : option jsstring;
  f_fecha_registro : jsstring
}.

Definition select_list (u : usuario) : fila :=
  mkFila (id u) (nombre u) (apellido u) (email u) (telefono u) (pais u)
         (FORMAT_ddMMyyyy_HHmm (fecha_registro u)).

(** [ORDER BY key DESC] on strings: an insertion sort; all the keys the
    listing compares are texts of one shape, digits at the same places, so
    that every collation orders them as the code units do.  The order of
    rows with equal keys is not specified by the server. *)
Fixpoint insert_desc {A} (key : A -> jsstring) (x : A) (l : list A) : list A :=
  match l with
  | [] => [x]
  | y :: l' =>
    match JS.compare (key x) (key y) with
    | Gt => x :: l
    | _ => y :: insert_desc key x l'
    end
  end.

Definition order_by_desc {A} (key : A -> jsstring) (l : list A) : list A :=
  fold_right (insert_desc key) [] l.

(** The listing query.  The select list renames the formatted text to
    [fecha_registro], the name of the column it is computed from, and an
    unqualified name in [ORDER BY] is resolved against the select list
    first: the sort key is the formatted text, not the [DATETIME] column. *)
Definition select_usuarios (rows : list usuario) : list fila :=
  order_by_desc f_fecha_registro (map select_list rows).

(** What a statement returns in [result.recordset]. *)
Inductive recordset :=
| NoRecordset
| ScopeIdentity (id : Z)
| Filas (rows : list fila).

Definition invalid_object_name : JsError :=
  mkError (u16 "Invalid object name 'usuarios'.") (Some 208%Z).

Definition unique_key_violation : JsError :=
  mkError (u16 "Violation of UNIQUE KEY constraint. Cannot insert duplicate key in object 'dbo.usuarios'.")
          (Some 2627%Z).

Definition email_taken (e : jsstring) (rows : list usuario) : bool :=
  existsb (fun u => jsstring_eqb (email u) e) rows.

(** One statement, run at server time [now].  A statement that raises an
    error leaves the table as it was; a rejected insert still consumes an
    identity value.  The [UNIQUE] constraint compares emails as the handler
    sends them; column sizes are not modelled (the validation rules keep
    the values within them). *)
Definition run (s : statement) (now : DateTime) (d : database)
  : (JsError + recordset) * database :=
  match s with
  | CreateTableIfNotExists =>
    match usuarios d with
    | None => (inr NoRecordset, mkDatabase (Some []) (identity d))
    | Some _ => (inr NoRecordset, d)
    end
  | InsertUsuario n a e t p =>
    match usuarios d with
    | None => (inl invalid_object_name, d)
    | Some rows =>
      if email_taken e rows then
        (inl unique_key_violation, mkDatabase (Some rows) (identity d + 1))
      else
        (inr (ScopeIdentity (identity d)),
         mkDatabase (Some (rows ++ [mkUsuario (identity d) n a e t p now]))
                    (identity d + 1))
    end
  | SelectUsuarios =>
    match usuarios d with
    | None => (inl invalid_object_name, d)
    | Some rows => (inr (Filas (select_usuarios rows)), d)
    end
  end.

End Sql.

(* ================================================================= *)
(** ** The world the asynchronous functions run in *)

(** A connection pool handle of [mssql]: the object [sql.connect] resolves
    to, with its [connected] property. *)
Record Pool := mkPool { pool_id : nat; connected : bool }.

(** How a call to [sql.connect(config)] ends: it resolves to a connected
    pool or rejects. *)
Inductive ConnectOutcome :=
| Resolves (id : nat)
| Rejects (e : JsError).

(** What the program does not control: the outcome of the k-th call to
    [sql.connect], a transport fault (if any) of the k-th query, the server
    clock [GETDATE()] at the k-th query, and [process.env]. *)
Record Environment := mkEnvironment {
  connect_outcome : nat -> ConnectOutcome;
  query_fault : nat -> option JsError;
  GETDATE : nat -> DateTime;
  NODE_ENV : option jsstring;
  PORT_env : option jsstring
}.

(** Observable events, in the order they happen. *)
Inductive Event :=
| EvConnect (k : nat)
| EvSetTimeout (ms : Z)
| EvConsoleLog (args : list jsstring)
| EvConsoleError (args : list jsstring)
| EvQuery (p : Pool) (s : Sql.statement)
| EvListen (port : value) (on_listening : list (list jsstring)).

Record World := mkWorld {
  pool : option Pool;      (* [let pool = null] of the pool module *)
  connects : nat;          (* calls to [sql.connect] so far *)
  queries : nat;           (* queries sent so far *)
  db : Sql.database;
  trace : list Event;
  env : Environment
}.

Definition set_pool (p : option Pool) (w : World) : World :=
  mkWorld p (connects w) (queries w) (db w) (trace w) (env w).

Definition emit (e : Event) (w : World) : World :=
  mkWorld (pool w) (connects w) (queries w) (db w) (trace w ++ [e]) (env w).

(** How an asynchronous function ends: it returns (its promise resolves)
    or it throws (its promise rejects). *)
Inductive completion (A : Type) :=
| Return (a : A)
| Throw (e : JsError).
Arguments Return {A} a.
Arguments Throw {A} e.

Definition M (A : Type) : Type := World -> completion A * World.

Definition ret {A} (a : A) : M A := fun w => (Return a, w).

Definition bind {A B} (m : M A) (f : A -> M B) : M B :=
  fun w => match m w with
           | (Return a, w') => f a w'
           | (Throw e, w') => (Throw e, w')
           end.

Definition throw {A} (e : JsError) : M A := fun w => (Throw e, w).

(** [try { m } catch (e) { h e }]. *)
Definition try_catch {A} (m : M A) (h : JsError -> M A) : M A :=
  fun w => match m w with
           | (Return a, w') => (Return a, w')
           | (Throw e, w') => h e w'
           end.

Declare Scope js_scope.
Delimit Scope js_scope with js.
Notation "x <- c1 ;; c2" := (bind c1 (fun x => c2))
  (at level 61, c1 at next level, right associativity) : js_scope.
Notation "c1 ;; c2" := (bind c1 (fun _ => c2))
  (at level 61, right associativity) : js_scope.
Open Scope js_scope.

Definition read_pool : M (option Pool) := fun w => (Return (pool w), w).
Definition write_pool (p : option Pool) : M unit := fun w => (Return tt, set_pool p w).
Definition read_env : M Environment := fun w => (Return (env w), w).

Definition console_log (args : list jsstring) : M unit :=
  fun w => (Return tt, emit (EvConsoleLog args) w).
Definition console_error (args : list jsstring) : M unit :=
  fun w => (Return tt, emit (EvConsoleError args) w).

(** [await new Promise(resolve => setTimeout(resolve, ms))]. *)
Definition await_setTimeout (ms : Z) : M unit :=
  fun w => (Return tt, emit (EvSetTimeout ms) w).

(** [app.listen(port, callback)]; the callback's console lines are
    recorded with the event.  The call is modelled for a port that [listen]
    accepts; a port that it refuses (70000, say) makes the call throw,
    which this definition does not do. *)
Definition app_listen (port : value) (on_listening : list (list jsstring)) : M unit :=
  fun w => (Return tt, emit (EvListen port on_listening) w).

(** [await sql.connect(config)]. *)
Definition sql_connect : M Pool :=
  fun w =>
    let k := connects w in
    let w' := mkWorld (pool w) (S k) (queries w) (db w)
                      (trace w ++ [EvConnect k]) (env w) in
    match connect_outcome (env w) k with
    | Resolves i => (Return (mkPool i true), w')
    | Rejects e => (Throw e, w')
    end.

Definition type_error (what : string) : JsError := mkError (u16 what) None.

(** [pool.request()], where [pool] may be [null]. *)
Definition request (p : option Pool) : M Pool :=
  match p with
  | Some h => ret h
  | None => throw (type_error "Cannot read properties of null (reading 'request')")
  end.

(** [await pool.request()...query(statement)].  Whether the query fails
    outside the statement itself (a closed or lost connection, a timeout)
    is the environment's choice, query by query; the handle's [connected]
    flag is not consulted, and such a failure leaves the database as it
    was. *)
Definition query (p : Pool) (s : Sql.statement) : M Sql.recordset :=
  fun w =>
    let k := queries w in
    let tr := trace w ++ [EvQuery p s] in
    match query_fault (env w) k with
    | Some e => (Throw e, mkWorld (pool w) (connects w) (S k) (db w) tr (env w))
    | None =>
      let (r, d) := Sql.run s (GETDATE (env w) k) (db w) in
      (match r with inl e => Throw e | inr rs => Return rs end,
       mkWorld (pool w) (connects w) (S k) d tr (env w))
    end.

(* ================================================================= *)
(** ** The pool manager *)

(** [db.js]. *)
Module DbJs.

Definition getPool : M (option Pool) :=
  p <- read_pool ;;
  match p with
  | None => c <- sql_connect ;; write_pool (Some c)
  | Some _ => ret tt
  end ;;
  read_pool.

End DbJs.

(** The version of [db.js] that reconnects and retries. *)
Module DbRetry.

Definition maxRetries : nat := 3.

(** How an iteration of the loop ends: [return v], or on to the next one. *)
Inductive control (A : Type) :=
| Returned (v : A)
| Continue.
Arguments Returned {A} v.
Arguments Continue {A}.

Definition intento (i : nat) (err : JsError) : jsstring :=
  u16 "Intento " ++ dec (Z.of_nat i + 1) ++ u16 "/" ++ dec (Z.of_nat maxRetries)
  ++ u16 " de conexión falló: " ++ err_message err.

(** [for (let i = ...; i < maxRetries; i++) { try ... catch ... }], with
    [remaining = maxRetries - i] iterations to go. *)
Fixpoint for_i (remaining i : nat) : M (control (option Pool)) :=
  match remaining with
  | O => ret Continue
  | S r =>
    c <- try_catch
           (p <- sql_connect ;;
            write_pool (Some p) ;;
            q <- read_pool ;;
            ret (Returned q))
           (fun err =>
              console_log [intento i err] ;;
              write_pool None ;;
              if (i <? maxRetries - 1)%nat
              then await_setTimeout 3000 ;; ret Continue
              else throw err) ;;
    match c with
    | Returned v => ret (Returned v)
    | Continue => for_i r (S i)
    end
  end.

Definition getPool : M (option Pool) :=
  p <- read_pool ;;
  match p with
  | Some h => if negb (connected h) then write_pool None else ret tt
  | None => ret tt
  end ;;
  p <- read_pool ;;
  match p with
  | None =>
    c <- for_i maxRetries 0 ;;
    match c with
    | Returned v => ret v
    | Continue => read_pool
    end
  | Some _ => read_pool
  end.

End DbRetry.

(** The two versions of the module that [require('./db')] can stand for. *)
Inductive DbModule := db_js | db_retry.

Definition getPool (v : DbModule) : M (option Pool) :=
  match v with
  | db_js => DbJs.getPool
  | db_retry => DbRetry.getPool
  end.

(* ================================================================= *)
(** ** HTTP responses *)

Unset Elimination Schemes.
Inductive json :=
| JNull
| JBool (b : bool)
| JNum (z : Z)
| JStr (s : jsstring)
| JArr (items : list json)
| JObj (fields : list (string * json)).
Set Elimination Schemes.

(** [res.status(code).json(body)]. *)
Record Response := mkResponse { status : Z; body : json }.

(** [res.json(body)]: the status stays 200. *)
Definition res_json (b : json) : Response := mkResponse 200 b.

(** [String(v)], as a template literal converts a primitive value. *)
Definition String_ (v : value) : jsstring :=
  match v with
  | VUndefined => u16 "undefined"
  | VNull => u16 "null"
  | VBool true => u16 "true"
  | VBool false => u16 "false"
  | VNum z => dec z
  | VStr s => s
  end.

(* ================================================================= *)
(** ** express-validator: validation chains *)

Module ExpressValidator.

(** The fields of [req.body] the service reads. *)
Record Body := mkBody {
  nombre : value;
  apellido : value;
  email : value;
  telefono : value;
  pais : value
}.

Inductive path := p_nombre | p_apellido | p_email | p_telefono | p_pais.

Definition get (f : path) (b : Body) : value :=
  match f with
  | p_nombre => nombre b
  | p_apellido => apellido b
  | p_email => email b
  | p_telefono => telefono b
  | p_pais => pais b
  end.

Definition set (f : path) (v : value) (b : Body) : Body :=
  match f with
  | p_nombre => mkBody v (apellido b) (email b) (telefono b) (pais b)
  | p_apellido => mkBody (nombre b) v (email b) (telefono b) (pais b)
  | p_email => mkBody (nombre b) (apellido b) v (telefono b) (pais b)
  | p_telefono => mkBody (nombre b) (apellido b) (email b) v (pais b)
  | p_pais => mkBody (nombre b) (apellido b) (email b) (telefono b) v
  end.

(** The text a standard validator or sanitizer is applied to. *)
Definition toString (v : value) : jsstring :=
  match v with
  | VUndefined | VNull => []
  | VBool true => u16 "true"
  | VBool false => u16 "false"
  | VNum z => dec z
  | VStr s => s
  end.

(** An item of a chain: a sanitizer, which replaces the field's value, or
    a validator with the message set by [withMessage]. *)
Inductive item :=
| Sanitizer (f : jsstring -> value)
| Validator (test : jsstring -> bool) (message : jsstring).

(** [body(field)...], with [optional({ checkFalsy: true })] as a flag. *)
Record chain := mkChain {
  field : path;
  optional_checkFalsy : bool;
  stack : list item
}.

(** The items run in order on the current value (express-validator 6 and
    later).  Before each item, an optional field whose current value is
    falsy is left out: the item does not run on it.  A failing validator
    records its message and the chain goes on (no [bail]). *)
Fixpoint run_stack (optional : bool) (items : list item) (v : value)
  : value * list jsstring :=
  match items with
  | [] => (v, [])
  | it :: rest =>
    if optional && falsy v then run_stack optional rest v
    else match it with
    | Sanitizer f => run_stack optional rest (f (toString v))
    | Validator test message =>
      let (v', errs) := run_stack optional rest v in
      (v', if test (toString v) then errs else message :: errs)
    end
  end.

(** One chain as a middleware: the sanitized value is written back to
    [req.body]. *)
Definition run_chain (c : chain) (b : Body) : Body * list jsstring :=
  let (v, errs) := run_stack (optional_checkFalsy c) (stack c) (get (field c) b) in
  (set (field c) v b, errs).

(** The chains run one after the other; [validationResult(req).array()]
    lists the messages in that order. *)
Fixpoint run_chains (cs : list chain) (b : Body) : Body * list jsstring :=
  match cs with
  | [] => (b, [])
  | c :: rest =>
    let (b1, e1) := run_chain c b in
    let (b2, e2) := run_chains rest b1 in
    (b2, e1 ++ e2)
  end.

End ExpressValidator.

(* ================================================================= *)
(** ** routes/users.js *)

Module Users.
Import ExpressValidator.

Definition in_range (lo hi c : N) : bool := ((lo <=? c) && (c <=? hi))%N.
Definition one_of (chars : jsstring) (c : N) : bool := existsb (N.eqb c) chars.

(** [/^[a-zA-ZáéíóúÁÉÍÓÚñÑüÜ\s]+$/]. *)
Definition letra_o_espacio (c : N) : bool :=
  in_range 97 122 c || in_range 65 90 c
  || one_of (u16 "áéíóúÁÉÍÓÚñÑüÜ") c || is_space c.

Definition re_letras (s : jsstring) : bool :=
  match s with [] => false | _ => forallb letra_o_espacio s end.

(** [/^[\d\s\-\+\(\)]{7,20}$/]. *)
Definition signo_telefono (c : N) : bool :=
  is_digit c || is_space c || one_of (u16 "-+()") c.

Definition re_telefono (s : jsstring) : bool :=
  (7 <=? List.length s)%nat && (List.length s <=? 20)%nat && forallb signo_telefono s.

(** [xssFilters.inHTMLData]: every [<] becomes [&lt;]. *)
Definition inHTMLData (s : jsstring) : jsstring :=
  flat_map (fun c => if (c =? 60)%N then u16 "&lt;" else [c]) s.

(** [req.body.campo.trim()]: a method of strings only; on another value the
    engine throws a [TypeError] with the text below. *)
Definition method_trim (campo : string) (v : value) : M jsstring :=
  match v with
  | VStr s => ret (trim s)
  | VUndefined => throw (type_error "Cannot read properties of undefined (reading 'trim')")
  | VNull => throw (type_error "Cannot read properties of null (reading 'trim')")
  | _ => throw (type_error (String.append "req.body."
                              (String.append campo ".trim is not a function")))
  end.

(** [result.recordset[0].id]. *)
Definition recordset_0_id (r : Sql.recordset) : M Z :=
  match r with
  | Sql.ScopeIdentity i => ret i
  | _ => throw (type_error "Cannot read properties of undefined (reading 'id')")
  end.

(** [result.recordset] of the listing. *)
Definition recordset_rows (r : Sql.recordset) : M (list Sql.fila) :=
  match r with
  | Sql.Filas rows => ret rows
  | _ => throw (type_error "Cannot read properties of undefined (reading 'length')")
  end.

Definition nullable (o : option jsstring) : json :=
  match o with Some s => JStr s | None => JNull end.

Definition fila_json (f : Sql.fila) : json :=
  JObj [("id", JNum (Sql.f_id f)); ("nombre", JStr (Sql.f_nombre f));
        ("apellido", JStr (Sql.f_apellido f)); ("email", JStr (Sql.f_email f));
        ("telefono", nullable (Sql.f_telefono f)); ("pais", nullable (Sql.f_pais f));
        ("fecha_registro", JStr (Sql.f_fecha_registro f))]%string.

(** [error.number === 2627 || error.number === 2601]. *)
Definition es_duplicado (error : JsError) : bool :=
  match err_number error with
  | Some n => (n =? 2627)%Z || (n =? 2601)%Z
  | None => false
  end.

Section Rutas.

(** The functions of validator.js whose result the rules depend on:
    [isLength(str, {min, max})], [isEmail(str)], [normalizeEmail(str)]
    (a string, or [false]). *)
Variable isLength : option N -> option N -> jsstring -> bool.
Variable isEmail : jsstring -> bool.
Variable normalizeEmail : jsstring -> value.

Definition sanitizer_trim : item := Sanitizer (fun s => VStr (trim s)).

Definition regla_nombre : chain :=
  mkChain p_nombre false
    [ sanitizer_trim;
      Validator (isLength (Some 2%N) (Some 100%N))
                (u16 "El nombre debe tener entre 2 y 100 caracteres");
      Validator re_letras
                (u16 "El nombre solo puede contener letras y espacios") ].

Definition regla_apellido : chain :=
  mkChain p_apellido false
    [ sanitizer_trim;
      Validator (isLength (Some 2%N) (Some 100%N))
                (u16 "El apellido debe tener entre 2 y 100 caracteres");
      Validator re_letras
                (u16 "El apellido solo puede contener letras y espacios") ].

Definition regla_email : chain :=
  mkChain p_email false
    [ sanitizer_trim;
      Validator isEmail (u16 "Ingrese un correo electrónico válido");
      Sanitizer normalizeEmail;
      Validator (isLength None (Some 255%N))
                (u16 "El correo no puede exceder 255 caracteres") ].

Definition regla_telefono : chain :=
  mkChain p_telefono true
    [ sanitizer_trim;
      Validator re_telefono (u16 "Ingrese un número de teléfono válido") ].

Definition regla_pais : chain :=
  mkChain p_pais true
    [ sanitizer_trim;
      Validator (isLength None (Some 100%N))
                (u16 "El país no puede exceder 100 caracteres");
      Validator re_letras
                (u16 "El país solo puede contener letras y espacios") ].

Definition validacionRegistro : list chain :=
  [ regla_nombre; regla_apellido; regla_email; regla_telefono; regla_pais ].

(** [req.body] after the validation middleware, and
    [validationResult(req).array().map(e => e.msg)]. *)
Definition validationResult (b : Body) : Body * list jsstring :=
  run_chains validacionRegistro b.

Definition isEmpty (errors : list jsstring) : bool :=
  match errors with [] => true | _ => false end.

(** [req.body.campo ? xssFilters.inHTMLData(req.body.campo.trim()) : null]. *)
Definition opcional (campo : string) (v : value) : M (option jsstring) :=
  if truthy v then s <- method_trim campo v ;; ret (Some (inHTMLData s))
  else ret None.

(** The five constants of the handler. *)
Record Campos := mkCampos {
  c_nombre : jsstring;
  c_apellido : jsstring;
  c_email : jsstring;
  c_telefono : option jsstring;
  c_pais : option jsstring
}.

(** "Sanitizar entradas contra XSS": the five constants, computed from
    [req.body] in the order of the source. *)
Definition sanitizar (b : Body) : M Campos :=
  nombre <- method_trim "nombre" (nombre b) ;;
  apellido <- method_trim "apellido" (apellido b) ;;
  email <- method_trim "email" (email b) ;;
  telefono <- opcional "telefono" (telefono b) ;;
  pais <- opcional "pais" (pais b) ;;
  ret (mkCampos (inHTMLData nombre) (inHTMLData apellido) (inHTMLData email)
                telefono pais).

Definition insert_usuario (c : Campos) : Sql.statement :=
  Sql.InsertUsuario (c_nombre c) (c_apellido c) (c_email c) (c_telefono c) (c_pais c).

(** [router.post('/', validacionRegistro, async (req, res) => ...)]. *)
Definition post (v : DbModule) (req_body : Body) : M Response :=
  let (b, errors) := validationResult req_body in
  try_catch
    (if negb (isEmpty errors) then
       ret (mkResponse 400
              (JObj [("success", JBool false);
                     ("message", JStr (u16 "Error de validación"));
                     ("errors", JArr (map JStr errors))]%string))
     else
       c <- sanitizar b ;;
       pool <- getPool v ;;
       r <- request pool ;;
       result <- query r (insert_usuario c) ;;
       id <- recordset_0_id result ;;
       ret (mkResponse 201
              (JObj [("success", JBool true);
                     ("message", JStr (u16 "Usuario registrado exitosamente"));
                     ("data", JObj [("id", JNum id);
                                    ("nombre", JStr (c_nombre c));
                                    ("apellido", JStr (c_apellido c));
                                    ("email", JStr (c_email c))])]%string)))
    (fun error =>
       if es_duplicado error then
         ret (mkResponse 409
                (JObj [("success", JBool false);
                       ("message", JStr (u16 "El correo electrónico ya está registrado"))]%string))
       else
         console_error [u16 "Error al registrar usuario:"; err_message error] ;;
         ret (mkResponse 500
                (JObj [("success", JBool false);
                       ("message", JStr (u16 "Error interno del servidor. Intente nuevamente."))]%string))).

End Rutas.

(** [router.get('/', async (req, res) => ...)]. *)
Definition get (v : DbModule) : M Response :=
  try_catch
    (pool <- getPool v ;;
     r <- request pool ;;
     result <- query r Sql.SelectUsuarios ;;
     rows <- recordset_rows result ;;
     ret (res_json
            (JObj [("success", JBool true);
                   ("count", JNum (Z.of_nat (List.length rows)));
                   ("data", JArr (map fila_json rows))]%string)))
    (fun error =>
       console_error [u16 "Error al obtener usuarios:"; err_message error] ;;
       ret (mkResponse 500
              (JObj [("success", JBool false);
                     ("message", JStr (u16 "Error interno del servidor"))]%string))).

End Users.

(* ================================================================= *)
(** ** The server entry point *)

Module Server.

(** [process.env.PORT || 8080]. *)
Definition PORT (e : Environment) : value :=
  match PORT_env e with
  | Some s => if truthy (VStr s) then VStr s else VNum 8080
  | None => VNum 8080
  end.

(** [process.env.NODE_ENV === 'production']. *)
Definition is_production (e : Environment) : bool :=
  match NODE_ENV e with
  | Some s => jsstring_eqb s (u16 "production")
  | None => false
  end.

(** [process.env.NODE_ENV || 'development']. *)
Definition entorno (e : Environment) : jsstring :=
  match NODE_ENV e with
  | Some s => if truthy (VStr s) then s else u16 "development"
  | None => u16 "development"
  end.

(** The callback of [app.listen] after a successful start-up: its two
    console lines. *)
Definition on_listening (e : Environment) : list (list jsstring) :=
  [ [u16 "🚀 Servidor SecureFeedback corriendo en puerto " ++ String_ (PORT e)];
    [u16 "📋 Entorno: " ++ entorno e] ].

(** The callback of [app.listen] in the [catch] block. *)
Definition on_listening_sin_db (e : Environment) : list (list jsstring) :=
  [ [u16 "⚠️ Servidor iniciado en puerto " ++ String_ (PORT e)
     ++ u16 " (sin conexión a DB)"] ].

Definition startServer (v : DbModule) : M unit :=
  e <- read_env ;;
  try_catch
    (getPool v ;;
     console_log [u16 "✅ Conexión a Azure SQL Database establecida"] ;;
     pool <- getPool v ;;
     r <- request pool ;;
     query r Sql.CreateTableIfNotExists ;;
     console_log [u16 "✅ Tabla de usuarios verificada/creada"] ;;
     app_listen (PORT e) (on_listening e))
    (fun error =>
       console_error [u16 "❌ Error al iniciar el servidor:"; err_message error] ;;
       if is_production e then app_listen (PORT e) (on_listening_sin_db e)
       else ret tt).

End Server.

(* ================================================================= *)
(** ** Vocabulary of the properties *)

(** [confined P m]: [m] leaves the environment alone and only adds events
    that satisfy [P] to the trace. *)
Definition confined {A} (P : Event -> Prop) (m : M A) : Prop :=
  forall w, env (snd (m w)) = env w /\
            exists evs, trace (snd (m w)) = trace w ++ evs /\ Forall P evs.

(** [keeps_db m]: [m] leaves the database and the query counter alone. *)
Definition keeps_db {A} (m : M A) : Prop :=
  forall w, db (snd (m w)) = db w /\ queries (snd (m w)) = queries w.

(** The events of the pool manager: connection attempts, console lines
    and timers. *)
Definition pool_event (e : Event) : Prop :=
  match e with
  | EvConnect _ | EvSetTimeout _ | EvConsoleLog _ => True
  | _ => False
  end.

(** Start-up database initialization: what [startServer] does before it
    calls [app.listen] (acquire the pool, create the table if absent). *)
Definition db_init (v : DbModule) : M unit :=
  getPool v ;;
  console_log [u16 "✅ Conexión a Azure SQL Database establecida"] ;;
  pool <- getPool v ;;
  r <- request pool ;;
  query r Sql.CreateTableIfNotExists ;;
  console_log [u16 "✅ Tabla de usuarios verificada/creada"].

Definition not_listen (e : Event) : Prop :=
  match e with EvListen _ _ => False | _ => True end.

(** [text_ge a b]: the text [a] does not sort before the text [b]. *)
Definition text_ge (a b : jsstring) : Prop := JS.compare a b <> Lt.

(** *** Scenarios *)

Definition connection_refused : JsError :=
  mkError (u16 "Failed to connect to server in 15000ms") None.

(** The server clock: 31/01/2024 10:00 up to the second query, 01/02/2024
    09:00 from the third on. *)
Definition clock (k : nat) : DateTime :=
  if (k <=? 1)%nat then mkDateTime 2024 1 31 10 0 0 0
  else mkDateTime 2024 2 1 9 0 0 0.

(** A server that answers at once, and a server that is paused and
    refuses every connection. *)
Definition env_up : Environment :=
  mkEnvironment (fun k => Resolves (S k)) (fun _ => None) clock None None.

Definition env_down : Environment :=
  mkEnvironment (fun _ => Rejects connection_refused) (fun _ => None) clock None None.

Definition env_down_production : Environment :=
  mkEnvironment (fun _ => Rejects connection_refused) (fun _ => None) clock
                (Some (u16 "production")) None.

Definition boot (e : Environment) : World :=
  mkWorld None 0 0 Sql.empty [] e.

(** The pool of [boot env_up] after the first acquisition, and the same
    world once the handle reports itself disconnected. *)
Definition connected_world : World :=
  mkWorld (Some (mkPool 1 true)) 1 0 Sql.empty [EvConnect 0] env_up.

Definition stale_world : World :=
  set_pool (Some (mkPool 1 false)) connected_world.

(** Stand-ins for the three functions of validator.js, for the scenarios:
    length in code units, an [@] somewhere, no normalization. *)
Definition isLength_units (mn mx : option N) (s : jsstring) : bool :=
  let n := N.of_nat (List.length s) in
  match mn with Some m => (m <=? n)%N | None => true end
  && match mx with Some m => (n <=? m)%N | None => true end.

Definition isEmail_at (s : jsstring) : bool := existsb (N.eqb 64) s.

Definition normalizeEmail_id (s : jsstring) : value := VStr s.

Definition registrar : DbModule -> ExpressValidator.Body -> M Response :=
  Users.post isLength_units isEmail_at normalizeEmail_id.

(** Three submissions: the first with an empty [telefono] and no [pais],
    the third with a digit in the name. *)
Definition req_ana : ExpressValidator.Body :=
  ExpressValidator.mkBody
    (VStr (u16 " Ana María")) (VStr (u16 "Núñez")) (VStr (u16 "ana@example.com"))
    (VStr []) VUndefined.

Definition req_luis : ExpressValidator.Body :=
  ExpressValidator.mkBody
    (VStr (u16 "Luis")) (VStr (u16 "Pérez")) (VStr (u16 "luis@example.com"))
    (VStr (u16 "+504 9999-0000")) (VStr (u16 "Honduras")).

Definition req_juan3 : ExpressValidator.Body :=
  ExpressValidator.mkBody
    (VStr (u16 "Juan3")) (VStr (u16 "Pérez")) (VStr (u16 "juan@example.com"))
    VUndefined VUndefined.

(** The world after start-up, after Ana registers (31/01/2024), and after
    Luis registers (01/02/2024). *)
Definition w_started : World := snd (Server.startServer db_retry (boot env_up)).
Definition w_ana : World := snd (registrar db_retry req_ana w_started).
Definition w_luis : World := snd (registrar db_retry req_luis w_ana).

(** *** Counting events *)

Definition is_connect (e : Event) : bool :=
  match e with EvConnect _ => true | _ => false end.

Definition is_timer (e : Event) : bool :=
  match e with EvSetTimeout _ => true | _ => false end.


Definition count (p : Event -> bool) (evs : list Event) : nat :=
  List.length (filter p evs).

(** Every timer of the list is one of 3000 ms. *)
Definition timers_of_3000 (evs : list Event) : Prop :=
  Forall (fun e => match e with EvSetTimeout ms => ms = 3000%Z | _ => True end) evs.

(** A server that refuses the first connection and accepts the next ones
    (a paused database that wakes up). *)
Definition env_wakes : Environment :=
  mkEnvironment (fun k => match k with O => Rejects connection_refused | S _ => Resolves k end)
                (fun _ => None) clock None None.

(** A server that granted the first connection, refuses the second and
    grants the later ones; and the world in which the first handle is
    cached and reports itself disconnected. *)
Definition env_flaky : Environment :=
  mkEnvironment (fun k => match k with
                          | 1 => Rejects connection_refused
                          | _ => Resolves (S k)
                          end)
                (fun _ => None) clock None None.

Definition stale_retry_world : World :=
  mkWorld (Some (mkPool 1 false)) 1 0 Sql.empty [EvConnect 0] env_flaky.

(** *** The four responses of the registration handler *)

Definition respuesta_validacion (errors : list jsstring) : Response :=
  mkResponse 400
    (JObj [("success", JBool false);
           ("message", JStr (u16 "Error de validación"));
           ("errors", JArr (map JStr errors))]%string).

Definition respuesta_creado (id : Z) (c : Users.Campos) : Response :=
  mkResponse 201
    (JObj [("success", JBool true);
           ("message", JStr (u16 "Usuario registrado exitosamente"));
           ("data", JObj [("id", JNum id);
                          ("nombre", JStr (Users.c_nombre c));
                          ("apellido", JStr (Users.c_apellido c));
                          ("email", JStr (Users.c_email c))])]%string).

Definition respuesta_duplicado : Response :=
  mkResponse 409
    (JObj [("success", JBool false);
           ("message", JStr (u16 "El correo electrónico ya está registrado"))]%string).

Definition respuesta_error_interno : Response :=
  mkResponse 500
    (JObj [("success", JBool false);
           ("message", JStr (u16 "Error interno del servidor. Intente nuevamente."))]%string).

(** The [catch] block of the registration handler. *)
Definition post_catch (error : JsError) : M Response :=
  if Users.es_duplicado error then ret respuesta_duplicado
  else
    console_error [u16 "Error al registrar usuario:"; err_message error] ;;
    ret respuesta_error_interno.

(** [registro_lanza v b w e w0]: the [try] block of the registration
    handler, entered in the world [w] with the validated body [b], throws
    [e] and leaves the world [w0].  The error comes from a [.trim()] of the
    sanitization, from [getPool], or from the insert. *)
Definition registro_lanza (v : DbModule) (b : ExpressValidator.Body) (w : World)
           (e : JsError) (w0 : World) : Prop :=
  (fst (Users.sanitizar b w) = Throw e /\ w0 = w)
  \/ (exists c,
        fst (Users.sanitizar b w) = Return c
        /\ (getPool v w = (Throw e, w0)
            \/ exists h w1,
                 getPool v w = (Return (Some h), w1)
                 /\ query h (Users.insert_usuario c) w1 = (Throw e, w0))).

(** The row an insert adds. *)
Definition fila_nueva (id : Z) (c : Users.Campos) (now : DateTime) : Sql.usuario :=
  Sql.mkUsuario id (Users.c_nombre c) (Users.c_apellido c) (Users.c_email c)
                (Users.c_telefono c) (Users.c_pais c) now.

(** A submission with no field at all. *)
Definition req_vacio : ExpressValidator.Body :=
  ExpressValidator.mkBody VUndefined VUndefined VUndefined VUndefined VUndefined.

(** *** The two responses of the listing handler *)

Definition respuesta_listado (rows : list Sql.usuario) : Response :=
  mkResponse 200
    (JObj [("success", JBool true);
           ("count", JNum (Z.of_nat (List.length rows)));
           ("data", JArr (map Users.fila_json (Sql.select_usuarios rows)))]%string).

Definition respuesta_error_listado : Response :=
  mkResponse 500
    (JObj [("success", JBool false);
           ("message", JStr (u16 "Error interno del servidor"))]%string).

(** The [catch] block of the listing handler. *)
Definition get_catch (error : JsError) : M Response :=
  console_error [u16 "Error al obtener usuarios:"; err_message error] ;;
  ret respuesta_error_listado.

(** [listado_lanza v w e w0]: the [try] block of the listing handler,
    entered in the world [w], throws [e] and leaves the world [w0].  The
    error comes from [getPool] or from the query. *)
Definition listado_lanza (v : DbModule) (w : World) (e : JsError) (w0 : World) : Prop :=
  getPool v w = (Throw e, w0)
  \/ exists h w1,
       getPool v w = (Return (Some h), w1)
       /\ query h Sql.SelectUsuarios w1 = (Throw e, w0).

(** *** Invariants of the database *)

(** The table, when it exists, holds no email twice and no identifier
    twice, and every identifier is a value the identity column has already
    given out. *)
Definition db_ok (d : Sql.database) : Prop :=
  (1 <= Sql.identity d)%Z /\
  forall rows, Sql.usuarios d = Some rows ->
    NoDup (map Sql.email rows) /\ NoDup (map Sql.id rows)
    /\ Forall (fun u => (1 <= Sql.id u < Sql.identity d)%Z) rows.

(** [preserves I m]: [m] keeps the property [I] of the database. *)
Definition preserves {A} (I : Sql.database -> Prop) (m : M A) : Prop :=
  forall w, I (db w) -> I (db (snd (m w))).

(** *** Ports *)



(** *** Form submissions *)

(** A field as an HTML form or a plain JSON object of texts sends it: a
    text, or missing. *)
Definition texto_o_ausente (v : value) : Prop :=
  v = VUndefined \/ exists s, v = VStr s.

Definition formulario (req : ExpressValidator.Body) : Prop :=
  texto_o_ausente (ExpressValidator.nombre req)
  /\ texto_o_ausente (ExpressValidator.apellido req)
  /\ texto_o_ausente (ExpressValidator.email req)
  /\ texto_o_ausente (ExpressValidator.telefono req)
  /\ texto_o_ausente (ExpressValidator.pais req).

(** A submission whose [telefono] is the empty string and whose [pais] is
    the number 0. *)
Definition req_opcionales_falsy : ExpressValidator.Body :=
  ExpressValidator.mkBody
    (VStr (u16 "Luis")) (VStr (u16 "Pérez")) (VStr (u16 "luis@example.com"))
    (VStr []) (VNum 0).

(** The status of the answer, when the handler answers. *)
Definition status_of (r : completion Response) : option Z :=
  match r with Return x => Some (status x) | Throw _ => None end.

(* ================================================================= *)
(** * Properties *)

(** ** Strings and dates *)

Example u16_accents :
  u16 "áéñÜ" = [225; 233; 241; 220]%N.
Proof. reflexivity. Qed.

Example u16_rocket : u16 "🚀 ok" = [55357; 56960; 32; 111; 107]%N.
Proof. reflexivity. Qed.

Example trim_example : trim (u16 "  Ana María ") = u16 "Ana María".
Proof. reflexivity. Qed.

Example dec_example : dec 3000 = u16 "3000" /\ dec (-12) = u16 "-12".
Proof. split; reflexivity. Qed.

Example FORMAT_example :
  FORMAT_ddMMyyyy_HHmm (mkDateTime 2024 2 1 9 5 59 0) = u16 "01/02/2024 09:05".
Proof. reflexivity. Qed.


(* ================================================================= *)
(** ** The monad: what an operation may touch *)

Section Frames.
Variable P : Event -> Prop.

Lemma confined_ret A (a : A) : confined P (ret a).
Proof. intro w; split; [reflexivity|]. exists []. now rewrite app_nil_r. Qed.

Lemma confined_throw A (e : JsError) : confined P (@throw A e).
Proof. intro w; split; [reflexivity|]. exists []. now rewrite app_nil_r. Qed.

Lemma confined_bind A B (m : M A) (f : A -> M B) :
  confined P m -> (forall a, confined P (f a)) -> confined P (bind m f).
Proof.
  intros Hm Hf w. unfold bind. destruct (Hm w) as [He [evs [Ht Hp]]].
  destruct (m w) as [[a|e] w1]; simpl in *.
  - destruct (Hf a w1) as [He2 [evs2 [Ht2 Hp2]]]. split; [congruence|].
    exists (evs ++ evs2). rewrite Ht2, Ht, app_assoc. split; [reflexivity|].
    now apply Forall_app.
  - split; [assumption|]. now exists evs.
Qed.

Lemma confined_try_catch A (m : M A) (h : JsError -> M A) :
  confined P m -> (forall e, confined P (h e)) -> confined P (try_catch m h).
Proof.
  intros Hm Hh w. unfold try_catch. destruct (Hm w) as [He [evs [Ht Hp]]].
  destruct (m w) as [[a|e] w1]; simpl in *.
  - split; [assumption|]. now exists evs.
  - destruct (Hh e w1) as [He2 [evs2 [Ht2 Hp2]]]. split; [congruence|].
    exists (evs ++ evs2). rewrite Ht2, Ht, app_assoc. split; [reflexivity|].
    now apply Forall_app.
Qed.

Lemma confined_emit A (a : A) (ev : Event) :
  P ev -> confined P (fun w => (Return a, emit ev w)).
Proof. intros Hev w; split; [reflexivity|]. exists [ev]. simpl. auto. Qed.

End Frames.

Lemma keeps_db_ret A (a : A) : keeps_db (ret a).
Proof. intro w; split; reflexivity. Qed.

Lemma keeps_db_throw A (e : JsError) : keeps_db (@throw A e).
Proof. intro w; split; reflexivity. Qed.

Lemma keeps_db_bind A B (m : M A) (f : A -> M B) :
  keeps_db m -> (forall a, keeps_db (f a)) -> keeps_db (bind m f).
Proof.
  intros Hm Hf w. unfold bind. destruct (Hm w) as [Hd Hq].
  destruct (m w) as [[a|e] w1]; simpl in *.
  - destruct (Hf a w1) as [Hd2 Hq2]. split; congruence.
  - now split.
Qed.

Lemma keeps_db_try_catch A (m : M A) (h : JsError -> M A) :
  keeps_db m -> (forall e, keeps_db (h e)) -> keeps_db (try_catch m h).
Proof.
  intros Hm Hh w. unfold try_catch. destruct (Hm w) as [Hd Hq].
  destruct (m w) as [[a|e] w1]; simpl in *.
  - now split.
  - destruct (Hh e w1) as [Hd2 Hq2]. split; congruence.
Qed.

(** ** The pool manager *)

Lemma sql_connect_confined : confined pool_event sql_connect.
Proof.
  intro w. unfold sql_connect.
  destruct (connect_outcome (env w) (connects w)); simpl;
    (split; [reflexivity|]; exists [EvConnect (connects w)]; split;
     [reflexivity | repeat constructor]).
Qed.

Lemma sql_connect_keeps_db : keeps_db sql_connect.
Proof.
  intro w. unfold sql_connect.
  destruct (connect_outcome (env w) (connects w)); simpl; now split.
Qed.

Lemma write_pool_confined P p : confined P (write_pool p).
Proof. intro w; split; [reflexivity|]. exists []. simpl. now rewrite app_nil_r. Qed.

Lemma read_pool_confined P : confined P read_pool.
Proof. intro w; split; [reflexivity|]. exists []. simpl. now rewrite app_nil_r. Qed.

Lemma for_i_confined r i : confined pool_event (DbRetry.for_i r i).
Proof.
  revert i. induction r as [|r IH]; intro i; simpl.
  - apply confined_ret.
  - apply confined_bind.
    + apply confined_try_catch.
      * apply confined_bind; [apply sql_connect_confined|]. intro p.
        apply confined_bind; [apply write_pool_confined|]. intros _.
        apply confined_bind; [apply read_pool_confined|]. intro q.
        apply confined_ret.
      * intro err.
        apply confined_bind; [now apply confined_emit|]. intros _.
        apply confined_bind; [apply write_pool_confined|]. intros _.
        destruct (i <? _)%nat.
        -- apply confined_bind; [now apply confined_emit|]. intros _.
           apply confined_ret.
        -- apply confined_throw.
    + intros [v|]; [apply confined_ret | apply IH].
Qed.

Lemma for_i_keeps_db r i : keeps_db (DbRetry.for_i r i).
Proof.
  revert i. induction r as [|r IH]; intro i; simpl.
  - apply keeps_db_ret.
  - apply keeps_db_bind.
    + apply keeps_db_try_catch.
      * apply keeps_db_bind; [apply sql_connect_keeps_db|]. intro p.
        apply keeps_db_bind; [intro w; now split|]. intros _.
        apply keeps_db_bind; [intro w; now split|]. intro q.
        apply keeps_db_ret.
      * intro err.
        apply keeps_db_bind; [intro w; now split|]. intros _.
        apply keeps_db_bind; [intro w; now split|]. intros _.
        destruct (i <? _)%nat.
        -- apply keeps_db_bind; [intro w; now split|]. intros _.
           apply keeps_db_ret.
        -- apply keeps_db_throw.
    + intros [v|]; [apply keeps_db_ret | apply IH].
Qed.

Lemma getPool_confined v : confined pool_event (getPool v).
Proof.
  destruct v; simpl.
  - unfold DbJs.getPool.
    apply confined_bind; [apply read_pool_confined|]. intro p.
    apply confined_bind; [|intros _; apply read_pool_confined].
    destruct p; [apply confined_ret|].
    apply confined_bind; [apply sql_connect_confined|]. intro c.
    apply write_pool_confined.
  - unfold DbRetry.getPool.
    apply confined_bind; [apply read_pool_confined|]. intro p.
    apply confined_bind.
    + destruct p as [h|]; [|apply confined_ret].
      destruct (negb (connected h)); [apply write_pool_confined | apply confined_ret].
    + intros _. apply confined_bind; [apply read_pool_confined|]. intros [h|].
      * apply read_pool_confined.
      * apply confined_bind; [apply for_i_confined|].
        intros [x|]; [apply confined_ret | apply read_pool_confined].
Qed.

Lemma getPool_keeps_db v : keeps_db (getPool v).
Proof.
  destruct v; simpl.
  - unfold DbJs.getPool.
    apply keeps_db_bind; [intro w; now split|]. intro p.
    apply keeps_db_bind; [|intros _ w; now split].
    destruct p; [apply keeps_db_ret|].
    apply keeps_db_bind; [apply sql_connect_keeps_db|]. intros c w; now split.
  - unfold DbRetry.getPool.
    apply keeps_db_bind; [intro w; now split|]. intro p.
    apply keeps_db_bind.
    + destruct p as [h|]; [|apply keeps_db_ret].
      destruct (negb (connected h)); [intro w; now split | apply keeps_db_ret].
    + intros _. apply keeps_db_bind; [intro w; now split|]. intros [h|].
      * intro w; now split.
      * apply keeps_db_bind; [apply for_i_keeps_db|].
        intros [x|]; [apply keeps_db_ret | intro w; now split].
Qed.

(** A cached handle that reports itself connected is returned as it is,
    by either version, and nothing else happens. *)
Lemma getPool_cached (v : DbModule) (w : World) (h : Pool) :
  pool w = Some h -> connected h = true ->
  getPool v w = (Return (Some h), w).
Proof.
  intros Hp Hc. destruct v; simpl.
  - unfold DbJs.getPool, bind, read_pool. rewrite Hp. simpl. now rewrite Hp.
  - unfold DbRetry.getPool, bind, read_pool. rewrite Hp, Hc. simpl.
    rewrite Hp. simpl. now rewrite Hp.
Qed.

(** A cached handle is what [db.js] returns, whatever it reports. *)
Lemma DbJs_getPool_cached (w : World) (h : Pool) :
  pool w = Some h -> DbJs.getPool w = (Return (Some h), w).
Proof.
  intro Hp. unfold DbJs.getPool, bind, read_pool. rewrite Hp. simpl. now rewrite Hp.
Qed.

(** The retrying version drops a handle that reports itself disconnected:
    the call goes on as a call with no cached handle. *)
Lemma DbRetry_discards_stale (w : World) (h : Pool) :
  pool w = Some h -> connected h = false ->
  DbRetry.getPool w = DbRetry.getPool (set_pool None w).
Proof.
  intros Hp Hc. unfold DbRetry.getPool, bind, read_pool, write_pool.
  rewrite Hp, Hc. reflexivity.
Qed.

(** With no cached handle, a first attempt that succeeds is cached and
    returned. *)
Lemma DbRetry_first_attempt (w : World) (i : nat) :
  pool w = None ->
  connect_outcome (env w) (connects w) = Resolves i ->
  DbRetry.getPool w =
  (Return (Some (mkPool i true)),
   mkWorld (Some (mkPool i true)) (S (connects w)) (queries w) (db w)
           (trace w ++ [EvConnect (connects w)]) (env w)).
Proof.
  intros Hp Ho.
  unfold DbRetry.getPool, bind, read_pool. rewrite Hp. simpl.
  unfold bind, try_catch, sql_connect. rewrite Hp. simpl. rewrite Ho. reflexivity.
Qed.

(** X1.  The retrying version with no cached handle and three rejected
    attempts: three calls to [sql.connect], a console line after each, a
    3000 ms timer after the first and after the second, and the third
    rejection thrown; no handle is cached. *)
Lemma DbRetry_three_attempts (w : World) (e1 e2 e3 : JsError) :
  pool w = None ->
  connect_outcome (env w) (connects w) = Rejects e1 ->
  connect_outcome (env w) (S (connects w)) = Rejects e2 ->
  connect_outcome (env w) (S (S (connects w))) = Rejects e3 ->
  DbRetry.getPool w =
  (Throw e3,
   mkWorld None (3 + connects w) (queries w) (db w)
     (trace w ++
      [EvConnect (connects w); EvConsoleLog [DbRetry.intento 0 e1]; EvSetTimeout 3000;
       EvConnect (1 + connects w); EvConsoleLog [DbRetry.intento 1 e2]; EvSetTimeout 3000;
       EvConnect (2 + connects w); EvConsoleLog [DbRetry.intento 2 e3]])
     (env w)).
Proof.
  intros Hp H1 H2 H3.
  unfold DbRetry.getPool, bind, read_pool. rewrite Hp. simpl.
  unfold bind, try_catch, sql_connect, console_log, write_pool, await_setTimeout,
    throw, ret, emit, set_pool. rewrite Hp. simpl.
  rewrite H1. simpl. rewrite H2. simpl. rewrite H3. simpl.
  repeat rewrite <- app_assoc. reflexivity.
Qed.

(** X2.  The retrying version with a cached handle that reports itself
    disconnected: the call starts with a call to [sql.connect].  What it
    returns is the handle that the k-th call to [sql.connect] resolved to,
    where k is the first of the three calls counting from this one that
    did not reject; that handle is cached, the count of calls stands just
    after k, and it is never the handle that was dropped.  When it throws,
    all three calls were rejected, what is thrown is the third rejection,
    and no handle is cached. *)
Lemma DbRetry_reconnects (w : World) (h : Pool) :
  pool w = Some h -> connected h = false ->
  (exists evs, trace (snd (DbRetry.getPool w))
               = trace w ++ EvConnect (connects w) :: evs) /\
  match fst (DbRetry.getPool w) with
  | Return x =>
    exists i k,
      x = Some (mkPool i true)
      /\ connects w <= k < DbRetry.maxRetries + connects w
      /\ connect_outcome (env w) k = Resolves i
      /\ (forall j, connects w <= j < k ->
                    exists e, connect_outcome (env w) j = Rejects e)
      /\ connects (snd (DbRetry.getPool w)) = S k
      /\ pool (snd (DbRetry.getPool w)) = x
      /\ x <> Some h
  | Throw e =>
    connect_outcome (env w) (S (S (connects w))) = Rejects e
    /\ (forall j, connects w <= j < DbRetry.maxRetries + connects w ->
                  exists e', connect_outcome (env w) j = Rejects e')
    /\ connects (snd (DbRetry.getPool w)) = DbRetry.maxRetries + connects w
    /\ pool (snd (DbRetry.getPool w)) = None
  end.
Proof.
  intros Hp Hc. rewrite (DbRetry_discards_stale w Hp Hc).
  assert (Hne : forall i, Some (mkPool i true) <> Some h).
  { intros i Heq. injection Heq as <-. discriminate Hc. }
  unfold DbRetry.getPool, bind, read_pool. simpl.
  unfold bind, try_catch, sql_connect, console_log, write_pool, await_setTimeout,
    throw, ret, emit, set_pool, read_pool. simpl.
  destruct (connect_outcome (env w) (connects w)) as [i1|e1] eqn:H1; simpl.
  { split; [now exists []|]. exists i1, (connects w).
    split; [reflexivity|]. split; [unfold DbRetry.maxRetries; lia|].
    split; [exact H1|]. split; [intros j Hj; lia|].
    split; [reflexivity|]. split; [reflexivity | apply Hne]. }
  destruct (connect_outcome (env w) (S (connects w))) as [i2|e2] eqn:H2; simpl.
  { split; [repeat rewrite <- app_assoc; simpl; eauto|].
    exists i2, (S (connects w)).
    split; [reflexivity|]. split; [unfold DbRetry.maxRetries; lia|].
    split; [exact H2|]. split.
    { intros j Hj. assert (j = connects w) as -> by lia. eauto. }
    split; [reflexivity|]. split; [reflexivity | apply Hne]. }
  destruct (connect_outcome (env w) (S (S (connects w)))) as [i3|e3] eqn:H3; simpl.
  { split; [repeat rewrite <- app_assoc; simpl; eauto|].
    exists i3, (S (S (connects w))).
    split; [reflexivity|]. split; [unfold DbRetry.maxRetries; lia|].
    split; [exact H3|]. split.
    { intros j Hj.
      assert (j = connects w \/ j = S (connects w)) as [->| ->] by lia; eauto. }
    split; [reflexivity|]. split; [reflexivity | apply Hne]. }
  split; [repeat rewrite <- app_assoc; simpl; eauto|].
  split; [reflexivity|]. split.
  { intros j Hj. unfold DbRetry.maxRetries in Hj.
    assert (j = connects w \/ j = S (connects w) \/ j = S (S (connects w)))
      as [->|[->| ->]] by lia; eauto. }
  split; reflexivity.
Qed.

(** With no cached handle the retrying version either returns a handle
    that [sql.connect] has just resolved to, and caches it, or throws and
    leaves no handle cached. *)
Lemma DbRetry_fresh_cases (w : World) :
  pool w = None ->
  (exists i, fst (DbRetry.getPool w) = Return (Some (mkPool i true))
             /\ pool (snd (DbRetry.getPool w)) = Some (mkPool i true))
  \/ (exists e, fst (DbRetry.getPool w) = Throw e
               /\ pool (snd (DbRetry.getPool w)) = None).
Proof.
  intro Hp. unfold DbRetry.getPool, bind, read_pool. rewrite Hp. simpl.
  unfold bind, try_catch, sql_connect, console_log, write_pool, await_setTimeout,
    throw, ret, emit, set_pool, read_pool. rewrite Hp. simpl.
  destruct (connect_outcome (env w) (connects w)); simpl; [left; eauto|].
  destruct (connect_outcome (env w) (S (connects w))); simpl; [left; eauto|].
  destruct (connect_outcome (env w) (S (S (connects w)))); simpl; [left; eauto|].
  right; eauto.
Qed.

(** Whenever [getPool] returns, it returns a handle, never [null]. *)
Lemma getPool_returns_handle (v : DbModule) (w : World) (x : option Pool) :
  fst (getPool v w) = Return x -> exists h, x = Some h.
Proof.
  destruct v; simpl.
  - unfold DbJs.getPool, bind, read_pool, write_pool, sql_connect, ret.
    destruct (pool w) as [h|] eqn:Hp; simpl.
    + rewrite Hp. intro H. injection H as <-. eauto.
    + destruct (connect_outcome (env w) (connects w)); simpl; [|discriminate].
      intro H. injection H as <-. eauto.
  - assert (Hfresh : forall w0, pool w0 = None ->
                     fst (DbRetry.getPool w0) = Return x -> exists h, x = Some h).
    { intros w0 Hp0 H. destruct (DbRetry_fresh_cases w0 Hp0) as [[i [Hr _]]|[e [Hr _]]];
        rewrite Hr in H; [injection H as <-; eauto | discriminate]. }
    destruct (pool w) as [h|] eqn:Hp; [|now apply Hfresh].
    destruct (connected h) eqn:Hc.
    + pose proof (getPool_cached db_retry w Hp Hc) as Hg. simpl in Hg.
      rewrite Hg. simpl. intro H. injection H as <-. eauto.
    + rewrite (DbRetry_discards_stale w Hp Hc). now apply Hfresh.
Qed.

(** C8.  Idempotence of the acquire operation, for both versions of the
    pool module: while the cached handle reports itself connected, a call
    to [getPool] after any number of earlier calls returns that handle and
    leaves the world as it was (no call to [sql.connect], no event). *)
Theorem getPool_idempotent (v : DbModule) (w : World) (h : Pool) (n : nat) :
  pool w = Some h -> connected h = true ->
  getPool v (Nat.iter n (fun w0 => snd (getPool v w0)) w) = (Return (Some h), w).
Proof.
  intros Hp Hc.
  assert (Hn : Nat.iter n (fun w0 => snd (getPool v w0)) w = w).
  { induction n as [|n IH]; simpl; [reflexivity|].
    rewrite IH, (getPool_cached v w Hp Hc). reflexivity. }
  rewrite Hn. now apply getPool_cached.
Qed.

Lemma getPool_idempotent_witness :
  getPool db_retry (Nat.iter 4 (fun w0 => snd (getPool db_retry w0)) connected_world)
  = (Return (Some (mkPool 1 true)), connected_world)
  /\ getPool db_js (Nat.iter 4 (fun w0 => snd (getPool db_js w0)) connected_world)
  = (Return (Some (mkPool 1 true)), connected_world).
Proof.
  split.
  - apply (@getPool_idempotent db_retry connected_world (mkPool 1 true) 4); reflexivity.
  - apply (@getPool_idempotent db_js connected_world (mkPool 1 true) 4); reflexivity.
Defined.

(** C2.  [db.js]: the first call connects and caches handle 1; once that
    handle reports itself disconnected, the next call returns the same
    handle and makes no call to [sql.connect], although the server would
    have accepted the connection.  On the same world the retrying version
    returns the handle of a new connection. *)
Theorem db_js_returns_stale_handle :
  DbJs.getPool (boot env_up) = (Return (Some (mkPool 1 true)), connected_world)
  /\ DbJs.getPool stale_world = (Return (Some (mkPool 1 false)), stale_world)
  /\ fst (DbRetry.getPool stale_world) = Return (Some (mkPool 2 true))
  /\ trace (snd (DbRetry.getPool stale_world)) = [EvConnect 0; EvConnect 1].
Proof. repeat split. Qed.

(** C3.  [db.js] with no cached handle and a server that refuses every
    connection: one call to [sql.connect], no timer, and the first
    rejection is thrown.  On the same world the retrying version makes
    three calls with a 3000 ms timer after the first and the second. *)
Theorem db_js_single_attempt :
  DbJs.getPool (boot env_down)
  = (Throw connection_refused, mkWorld None 1 0 Sql.empty [EvConnect 0] env_down)
  /\ fst (DbRetry.getPool (boot env_down)) = Throw connection_refused
  /\ trace (snd (DbRetry.getPool (boot env_down)))
     = [EvConnect 0; EvConsoleLog [DbRetry.intento 0 connection_refused];
        EvSetTimeout 3000;
        EvConnect 1; EvConsoleLog [DbRetry.intento 1 connection_refused];
        EvSetTimeout 3000;
        EvConnect 2; EvConsoleLog [DbRetry.intento 2 connection_refused]].
Proof. repeat split. Qed.

(** ** The server entry point *)

Lemma confined_weaken A (P Q : Event -> Prop) (m : M A) :
  (forall e, P e -> Q e) -> confined P m -> confined Q m.
Proof.
  intros HPQ Hm w. destruct (Hm w) as [He [evs [Ht Hp]]]. split; [assumption|].
  exists evs. split; [assumption|]. eapply Forall_impl; eauto.
Qed.

Lemma query_confined (P : Event -> Prop) (p : Pool) (s : Sql.statement) :
  P (EvQuery p s) -> confined P (query p s).
Proof.
  intros Hq w. unfold query.
  destruct (query_fault (env w) (queries w)); simpl.
  - split; [reflexivity|]. exists [EvQuery p s]. auto.
  - destruct (Sql.run s (GETDATE (env w) (queries w)) (db w)) as [r d]. simpl.
    split; [reflexivity|]. exists [EvQuery p s]. auto.
Qed.

Lemma request_confined (P : Event -> Prop) (p : option Pool) : confined P (request p).
Proof. destruct p; [apply confined_ret | apply confined_throw]. Qed.

Lemma db_init_confined (v : DbModule) : confined not_listen (db_init v).
Proof.
  assert (Hg : confined not_listen (getPool v)).
  { apply confined_weaken with (P := pool_event); [|apply getPool_confined].
    intros [] H; simpl in *; tauto. }
  unfold db_init.
  apply confined_bind; [exact Hg|]. intros _.
  apply confined_bind; [now apply confined_emit|]. intros _.
  apply confined_bind; [exact Hg|]. intro p.
  apply confined_bind; [apply request_confined|]. intro r.
  apply confined_bind; [now apply query_confined|]. intros _.
  now apply confined_emit.
Qed.

(** [startServer] in terms of how the initialization ends. *)
Lemma startServer_run (v : DbModule) (w : World) :
  Server.startServer v w =
  match db_init v w with
  | (Return _, w1) =>
    (Return tt, emit (EvListen (Server.PORT (env w)) (Server.on_listening (env w))) w1)
  | (Throw e, w1) =>
    let w2 := emit (EvConsoleError [u16 "❌ Error al iniciar el servidor:"; err_message e]) w1 in
    (Return tt,
     if Server.is_production (env w)
     then emit (EvListen (Server.PORT (env w)) (Server.on_listening_sin_db (env w))) w2
     else w2)
  end.
Proof.
  unfold Server.startServer, db_init, bind, try_catch, read_env, console_log,
    console_error, app_listen, ret.
  destruct (getPool v w) as [[p1|e1] w1]; simpl.
  2: { now destruct (Server.is_production (env w)). }
  destruct (getPool v (emit _ w1)) as [[p2|e2] w2]; simpl.
  2: { now destruct (Server.is_production (env w)). }
  destruct (request p2 w2) as [[r|e3] w3]; simpl.
  2: { now destruct (Server.is_production (env w)). }
  destruct (query r Sql.CreateTableIfNotExists w3) as [[rs|e4] w4]; simpl.
  2: { now destruct (Server.is_production (env w)). }
  reflexivity.
Qed.

(** C7.  When the start-up database initialization fails and [NODE_ENV] is
    [production], [startServer] logs the error and then calls
    [app.listen(PORT, ...)]: the HTTP listener starts. *)
Theorem startServer_production_listens
  (v : DbModule) (w w1 : World) (e : JsError) :
  db_init v w = (Throw e, w1) ->
  Server.is_production (env w) = true ->
  Server.startServer v w =
  (Return tt,
   emit (EvListen (Server.PORT (env w)) (Server.on_listening_sin_db (env w)))
     (emit (EvConsoleError [u16 "❌ Error al iniciar el servidor:"; err_message e]) w1))
  /\ In (EvListen (Server.PORT (env w)) (Server.on_listening_sin_db (env w)))
        (trace (snd (Server.startServer v w))).
Proof.
  intros Hi Hp. rewrite startServer_run, Hi, Hp. simpl. split; [reflexivity|].
  apply in_or_app. right. now left.
Qed.

Lemma startServer_production_listens_witness :
  In (EvListen (VNum 8080) (Server.on_listening_sin_db env_down_production))
     (trace (snd (Server.startServer db_retry (boot env_down_production)))).
Proof.
  exact (proj2 (@startServer_production_listens db_retry (boot env_down_production)
                  (snd (db_init db_retry (boot env_down_production)))
                  connection_refused eq_refl eq_refl)).
Defined.

(** C9.  When the start-up database initialization fails and [NODE_ENV] is
    not [production], [startServer] logs the error and returns; none of the
    events of the whole call is a call to [app.listen]. *)
Theorem startServer_development_never_listens
  (v : DbModule) (w w1 : World) (e : JsError) :
  db_init v w = (Throw e, w1) ->
  Server.is_production (env w) = false ->
  Server.startServer v w =
  (Return tt,
   emit (EvConsoleError [u16 "❌ Error al iniciar el servidor:"; err_message e]) w1)
  /\ exists evs,
       trace (snd (Server.startServer v w)) = trace w ++ evs
       /\ Forall not_listen evs
       /\ In (EvConsoleError [u16 "❌ Error al iniciar el servidor:"; err_message e]) evs.
Proof.
  intros Hi Hp. rewrite startServer_run, Hi, Hp. simpl. split; [reflexivity|].
  destruct (db_init_confined v w) as [_ [evs [Ht Hf]]]. rewrite Hi in Ht. simpl in Ht.
  exists (evs ++ [EvConsoleError [u16 "❌ Error al iniciar el servidor:"; err_message e]]).
  rewrite Ht, app_assoc. split; [reflexivity|]. split.
  - apply Forall_app. split; [assumption|]. repeat constructor.
  - apply in_or_app. right. now left.
Qed.

Lemma startServer_development_never_listens_witness :
  exists evs,
    trace (snd (Server.startServer db_retry (boot env_down))) = [] ++ evs
    /\ Forall not_listen evs
    /\ In (EvConsoleError [u16 "❌ Error al iniciar el servidor:";
                           err_message connection_refused]) evs.
Proof.
  exact (proj2 (@startServer_development_never_listens db_retry (boot env_down)
                  (snd (db_init db_retry (boot env_down)))
                  connection_refused eq_refl eq_refl)).
Defined.

(** ** The database *)

(** A statement that raises an error leaves the rows as they were. *)
Lemma run_error_keeps_rows (s : Sql.statement) (now : DateTime) (d : Sql.database)
      (e : JsError) :
  fst (Sql.run s now d) = inl e ->
  Sql.usuarios (snd (Sql.run s now d)) = Sql.usuarios d.
Proof.
  destruct s; simpl; destruct (Sql.usuarios d) as [rows|] eqn:Hu; simpl;
    try discriminate; try (intros _; now rewrite Hu).
  destruct (Sql.email_taken email rows); simpl; [reflexivity | discriminate].
Qed.

(** An insert that succeeds returns the identity value of the new row. *)
Lemma run_insert_returns_identity (n a e : jsstring) (t p : option jsstring)
      (now : DateTime) (d : Sql.database) (rs : Sql.recordset) :
  fst (Sql.run (Sql.InsertUsuario n a e t p) now d) = inr rs ->
  rs = Sql.ScopeIdentity (Sql.identity d).
Proof.
  simpl. destruct (Sql.usuarios d) as [rows|]; simpl; [|discriminate].
  destruct (Sql.email_taken e rows); simpl; [discriminate|]. congruence.
Qed.

(** An insert whose email is already in the table is rejected with error
    2627, which the handler takes for a duplicate. *)
Lemma run_insert_taken (n a e : jsstring) (t p : option jsstring)
      (now : DateTime) (d : Sql.database) (rows : list Sql.usuario) :
  Sql.usuarios d = Some rows -> Sql.email_taken e rows = true ->
  fst (Sql.run (Sql.InsertUsuario n a e t p) now d) = inl Sql.unique_key_violation
  /\ Users.es_duplicado Sql.unique_key_violation = true.
Proof. intros Hu Ht. simpl. rewrite Hu, Ht. now split. Qed.

Lemma query_throw_keeps_rows (h : Pool) (s : Sql.statement) (w w' : World) (e : JsError) :
  query h s w = (Throw e, w') -> Sql.usuarios (db w') = Sql.usuarios (db w).
Proof.
  unfold query. destruct (query_fault (env w) (queries w)) as [f|].
  - intro H. injection H as _ <-. reflexivity.
  - pose proof (@run_error_keeps_rows s (GETDATE (env w) (queries w)) (db w)) as Hk.
    destruct (Sql.run s (GETDATE (env w) (queries w)) (db w)) as [[e0|rs] d]; simpl in *.
    + intro H. injection H as _ <-. simpl. now apply (Hk e0).
    + discriminate.
Qed.

Lemma query_insert_returns_identity (h : Pool) (n a e : jsstring) (t p : option jsstring)
      (w w' : World) (rs : Sql.recordset) :
  query h (Sql.InsertUsuario n a e t p) w = (Return rs, w') ->
  rs = Sql.ScopeIdentity (Sql.identity (db w)).
Proof.
  unfold query. destruct (query_fault (env w) (queries w)) as [f|]; [discriminate|].
  pose proof (@run_insert_returns_identity n a e t p (GETDATE (env w) (queries w)) (db w)) as Hk.
  destruct (Sql.run _ (GETDATE (env w) (queries w)) (db w)) as [[e0|rs0] d]; simpl in *.
  - discriminate.
  - intro H. injection H as <- _. now apply Hk.
Qed.

(** ** Registration: [POST /api/users] *)

Section Registro.
Variable isLength : option N -> option N -> jsstring -> bool.
Variable isEmail : jsstring -> bool.
Variable normalizeEmail : jsstring -> value.

Local Abbreviation validationResult :=
  (Users.validationResult isLength isEmail normalizeEmail).
Local Abbreviation post := (Users.post isLength isEmail normalizeEmail).
Local Abbreviation regla_nombre := (Users.regla_nombre isLength).
Local Abbreviation regla_apellido := (Users.regla_apellido isLength).
Local Abbreviation regla_email := (Users.regla_email isLength isEmail normalizeEmail).
Local Abbreviation regla_telefono := Users.regla_telefono.
Local Abbreviation regla_pais := (Users.regla_pais isLength).
Local Abbreviation run_field c v :=
  (ExpressValidator.run_stack (ExpressValidator.optional_checkFalsy c)
                              (ExpressValidator.stack c) v).

(** The five constants are computed without touching the world. *)
Lemma sanitizar_pure (b : ExpressValidator.Body) (w : World) :
  snd (Users.sanitizar b w) = w.
Proof.
  assert (Hb : forall A B (m : M A) (f : A -> M B),
             (forall w0, snd (m w0) = w0) -> (forall a w0, snd (f a w0) = w0) ->
             forall w0, snd (bind m f w0) = w0).
  { intros A B m f Hm Hf w0. unfold bind. specialize (Hm w0).
    destruct (m w0) as [[a|e] w1]; simpl in *; subst; [apply Hf | reflexivity]. }
  assert (Ht : forall f x w0, snd (Users.method_trim f x w0) = w0).
  { intros f [] w0; reflexivity. }
  assert (Ho : forall f x w0, snd (Users.opcional f x w0) = w0).
  { intros f x w0. unfold Users.opcional. destruct (truthy x); [|reflexivity].
    apply Hb; [apply Ht | reflexivity]. }
  unfold Users.sanitizar.
  repeat (apply Hb; [solve [apply Ht | apply Ho] | intros ? ?]).
  reflexivity.
Qed.

(** C5.  A request with at least one validation message is answered with
    status 400 and the list of the messages; the world is left as it was:
    no pool acquisition, no query, no event. *)
Theorem post_validation_failure
  (v : DbModule) (req : ExpressValidator.Body) (w : World)
  (b : ExpressValidator.Body) (errors : list jsstring) :
  validationResult req = (b, errors) ->
  errors <> [] ->
  post v req w =
  (Return (mkResponse 400
     (JObj [("success", JBool false);
            ("message", JStr (u16 "Error de validación"));
            ("errors", JArr (map JStr errors))]%string)),
   w).
Proof.
  intros Hv Hne. unfold Users.post. rewrite Hv.
  destruct errors as [|m ms]; [contradiction|]. reflexivity.
Qed.

(** C6.  A request that passes validation, whose constants are computed,
    whose pool is acquired and whose insert succeeds is answered with
    status 201 and the identity value returned by the insert together with
    the inserted [nombre], [apellido] and [email]. *)
Theorem post_created
  (v : DbModule) (req b : ExpressValidator.Body) (w w1 w2 : World)
  (c : Users.Campos) (h : Pool) (rs : Sql.recordset) :
  validationResult req = (b, []) ->
  fst (Users.sanitizar b w) = Return c ->
  getPool v w = (Return (Some h), w1) ->
  query h (Users.insert_usuario c) w1 = (Return rs, w2) ->
  post v req w =
  (Return (mkResponse 201
     (JObj [("success", JBool true);
            ("message", JStr (u16 "Usuario registrado exitosamente"));
            ("data", JObj [("id", JNum (Sql.identity (db w)));
                           ("nombre", JStr (Users.c_nombre c));
                           ("apellido", JStr (Users.c_apellido c));
                           ("email", JStr (Users.c_email c))])]%string)),
   w2)
  /\ rs = Sql.ScopeIdentity (Sql.identity (db w)).
Proof.
  intros Hv Hs Hg Hq.
  assert (Hrs : rs = Sql.ScopeIdentity (Sql.identity (db w))).
  { apply query_insert_returns_identity in Hq.
    destruct (getPool_keeps_db v w) as [Hd _]. rewrite Hg in Hd. simpl in Hd.
    now rewrite <- Hd. }
  split; [|exact Hrs].
  unfold Users.post. rewrite Hv. simpl.
  unfold try_catch, bind at 1.
  pose proof (sanitizar_pure b w) as Hp.
  destruct (Users.sanitizar b w) as [r w0]. simpl in Hs, Hp. subst r w0.
  unfold bind at 1. rewrite Hg. simpl. unfold bind at 1. simpl.
  unfold bind at 1. rewrite Hq, Hrs. reflexivity.
Qed.

(** C4.  A request that passes validation and whose insert is rejected
    with error 2627 or 2601 (unique constraint, unique index) is answered
    with status 409 and the fixed duplicate-email message, and the rows of
    [usuarios] are those before the request. *)
Theorem post_duplicate_email
  (v : DbModule) (req b : ExpressValidator.Body) (w w1 w2 : World)
  (c : Users.Campos) (h : Pool) (error : JsError) :
  validationResult req = (b, []) ->
  fst (Users.sanitizar b w) = Return c ->
  getPool v w = (Return (Some h), w1) ->
  query h (Users.insert_usuario c) w1 = (Throw error, w2) ->
  err_number error = Some 2627%Z \/ err_number error = Some 2601%Z ->
  post v req w =
  (Return (mkResponse 409
     (JObj [("success", JBool false);
            ("message", JStr (u16 "El correo electrónico ya está registrado"))]%string)),
   w2)
  /\ Sql.usuarios (db w2) = Sql.usuarios (db w).
Proof.
  intros Hv Hs Hg Hq Hn. split.
  - unfold Users.post. rewrite Hv. simpl.
    unfold try_catch, bind at 1.
    pose proof (sanitizar_pure b w) as Hp.
    destruct (Users.sanitizar b w) as [r w0]. simpl in Hs, Hp. subst r w0.
    unfold bind at 1. rewrite Hg. simpl. unfold bind at 1. simpl.
    unfold bind at 1. rewrite Hq.
    unfold Users.es_duplicado. destruct Hn as [-> | ->]; reflexivity.
  - apply query_throw_keeps_rows in Hq. rewrite Hq.
    destruct (getPool_keeps_db v w) as [Hd _]. rewrite Hg in Hd. simpl in Hd.
    now rewrite Hd.
Qed.

(** The validation of a request, field by field: each chain reads and
    rewrites its own field only. *)
Lemma validationResult_fields (req : ExpressValidator.Body) :
  validationResult req =
  (ExpressValidator.mkBody
     (fst (run_field regla_nombre (ExpressValidator.nombre req)))
     (fst (run_field regla_apellido (ExpressValidator.apellido req)))
     (fst (run_field regla_email (ExpressValidator.email req)))
     (fst (run_field regla_telefono (ExpressValidator.telefono req)))
     (fst (run_field regla_pais (ExpressValidator.pais req))),
   snd (run_field regla_nombre (ExpressValidator.nombre req))
   ++ snd (run_field regla_apellido (ExpressValidator.apellido req))
   ++ snd (run_field regla_email (ExpressValidator.email req))
   ++ snd (run_field regla_telefono (ExpressValidator.telefono req))
   ++ snd (run_field regla_pais (ExpressValidator.pais req)) ++ []).
Proof.
  unfold Users.validationResult, Users.validacionRegistro.
  cbn [ExpressValidator.run_chains]. unfold ExpressValidator.run_chain.
  cbn [ExpressValidator.field ExpressValidator.optional_checkFalsy
       ExpressValidator.stack ExpressValidator.get
       Users.regla_nombre Users.regla_apellido Users.regla_email
       Users.regla_telefono Users.regla_pais].
  destruct (ExpressValidator.run_stack false _ (ExpressValidator.nombre req)) as [v1 e1].
  cbn [ExpressValidator.set ExpressValidator.get ExpressValidator.nombre
       ExpressValidator.apellido ExpressValidator.email ExpressValidator.telefono
       ExpressValidator.pais].
  destruct (ExpressValidator.run_stack false _ (ExpressValidator.apellido req)) as [v2 e2].
  cbn [ExpressValidator.set ExpressValidator.get ExpressValidator.nombre
       ExpressValidator.apellido ExpressValidator.email ExpressValidator.telefono
       ExpressValidator.pais].
  destruct (ExpressValidator.run_stack false _ (ExpressValidator.email req)) as [v3 e3].
  cbn [ExpressValidator.set ExpressValidator.get ExpressValidator.nombre
       ExpressValidator.apellido ExpressValidator.email ExpressValidator.telefono
       ExpressValidator.pais].
  destruct (ExpressValidator.run_stack true _ (ExpressValidator.telefono req)) as [v4 e4].
  cbn [ExpressValidator.set ExpressValidator.get ExpressValidator.nombre
       ExpressValidator.apellido ExpressValidator.email ExpressValidator.telefono
       ExpressValidator.pais].
  destruct (ExpressValidator.run_stack true _ (ExpressValidator.pais req)) as [v5 e5].
  reflexivity.
Qed.

(** An optional field whose value is falsy: no item of its chain runs, the
    value stays and there is no message. *)
Lemma run_stack_falsy (items : list ExpressValidator.item) (x : value) :
  falsy x = true -> ExpressValidator.run_stack true items x = (x, []).
Proof.
  intro Hf. induction items as [|it rest IH]; simpl; [reflexivity|].
  now rewrite Hf.
Qed.

Lemma opcional_falsy (f : string) (x : value) :
  falsy x = true -> Users.opcional f x = ret None.
Proof.
  unfold falsy, Users.opcional. destruct (truthy x); [discriminate | reflexivity].
Qed.

Lemma sanitizar_telefono_falsy (b : ExpressValidator.Body) :
  falsy (ExpressValidator.telefono b) = true ->
  Users.sanitizar b
  = Users.sanitizar (ExpressValidator.set ExpressValidator.p_telefono VUndefined b)
  /\ forall w c, fst (Users.sanitizar b w) = Return c -> Users.c_telefono c = None.
Proof.
  intro Hf. unfold Users.sanitizar. simpl.
  rewrite (opcional_falsy _ _ Hf). try rewrite (opcional_falsy _ VUndefined eq_refl).
  split; [reflexivity|]. intros w c. unfold bind, ret.
  destruct (Users.method_trim _ (ExpressValidator.nombre b) w) as [[n|e] w1]; [|discriminate].
  destruct (Users.method_trim _ (ExpressValidator.apellido b) w1) as [[a|e] w2]; [|discriminate].
  destruct (Users.method_trim _ (ExpressValidator.email b) w2) as [[m|e] w3]; [|discriminate].
  destruct (Users.opcional _ (ExpressValidator.pais b) w3) as [[q|e] w4]; [|discriminate].
  simpl. intro H. injection H as <-. reflexivity.
Qed.

Lemma sanitizar_pais_falsy (b : ExpressValidator.Body) :
  falsy (ExpressValidator.pais b) = true ->
  Users.sanitizar b
  = Users.sanitizar (ExpressValidator.set ExpressValidator.p_pais VUndefined b)
  /\ forall w c, fst (Users.sanitizar b w) = Return c -> Users.c_pais c = None.
Proof.
  intro Hf. unfold Users.sanitizar. simpl.
  rewrite (opcional_falsy _ _ Hf). try rewrite (opcional_falsy _ VUndefined eq_refl).
  split; [reflexivity|]. intros w c. unfold bind, ret.
  destruct (Users.method_trim _ (ExpressValidator.nombre b) w) as [[n|e] w1]; [|discriminate].
  destruct (Users.method_trim _ (ExpressValidator.apellido b) w1) as [[a|e] w2]; [|discriminate].
  destruct (Users.method_trim _ (ExpressValidator.email b) w2) as [[m|e] w3]; [|discriminate].
  destruct (Users.opcional _ (ExpressValidator.telefono b) w3) as [[q|e] w4]; [|discriminate].
  simpl. intro H. injection H as <-. reflexivity.
Qed.

(** X13.  A name with a character that is neither a letter of the class
    nor white space (a digit, a symbol) gets the message of the second rule
    of [nombre], so that the request is answered with 400. *)
Lemma nombre_rejected (req : ExpressValidator.Body) (c : N) :
  In c (trim (ExpressValidator.toString (ExpressValidator.nombre req))) ->
  Users.letra_o_espacio c = false ->
  In (u16 "El nombre solo puede contener letras y espacios")
     (snd (validationResult req))
  /\ snd (validationResult req) <> [].
Proof.
  intros Hin Hc.
  assert (Hre : Users.re_letras
                  (trim (ExpressValidator.toString (ExpressValidator.nombre req))) = false).
  { unfold Users.re_letras.
    destruct (trim _) as [|x s] eqn:Hs; [reflexivity|].
    apply not_true_is_false. intro Hall.
    rewrite forallb_forall in Hall. specialize (Hall c Hin). congruence. }
  assert (H : In (u16 "El nombre solo puede contener letras y espacios")
                 (snd (validationResult req))).
  { rewrite validationResult_fields. cbn [snd]. apply in_or_app. left.
    cbn [ExpressValidator.optional_checkFalsy ExpressValidator.stack Users.regla_nombre
         ExpressValidator.run_stack Users.sanitizer_trim andb
         ExpressValidator.toString].
    rewrite Hre.
    destruct (isLength _ _ _); cbn [snd]; [now left | right; now left]. }
  split; [exact H|]. intro He. rewrite He in H. exact H.
Qed.

Lemma digit_not_letter (c : N) : is_digit c = true -> Users.letra_o_espacio c = false.
Proof.
  unfold is_digit. rewrite andb_true_iff, !N.leb_le. intros [Hlo Hhi].
  assert (Hc : (c = 48 \/ c = 49 \/ c = 50 \/ c = 51 \/ c = 52 \/ c = 53
               \/ c = 54 \/ c = 55 \/ c = 56 \/ c = 57)%N) by lia.
  repeat (destruct Hc as [-> | Hc]; [reflexivity|]). subst; reflexivity.
Qed.

End Registro.

(** *** The registration scenarios *)

Lemma post_validation_failure_witness :
  registrar db_retry req_juan3 w_started =
  (Return (mkResponse 400
     (JObj [("success", JBool false);
            ("message", JStr (u16 "Error de validación"));
            ("errors", JArr [JStr (u16 "El nombre solo puede contener letras y espacios")])]%string)),
   w_started).
Proof.
  apply (@post_validation_failure isLength_units isEmail_at normalizeEmail_id
           db_retry req_juan3 w_started
           (fst (Users.validationResult isLength_units isEmail_at normalizeEmail_id req_juan3))
           [u16 "El nombre solo puede contener letras y espacios"]).
  - vm_compute. reflexivity.
  - discriminate.
Defined.

Lemma post_created_witness :
  registrar db_retry req_ana w_started =
  (Return (mkResponse 201
     (JObj [("success", JBool true);
            ("message", JStr (u16 "Usuario registrado exitosamente"));
            ("data", JObj [("id", JNum 1);
                           ("nombre", JStr (u16 "Ana María"));
                           ("apellido", JStr (u16 "Núñez"));
                           ("email", JStr (u16 "ana@example.com"))])]%string)),
   w_ana).
Proof.
  apply (proj1 (@post_created isLength_units isEmail_at normalizeEmail_id
           db_retry req_ana
           (fst (Users.validationResult isLength_units isEmail_at normalizeEmail_id req_ana))
           w_started w_started w_ana
           (Users.mkCampos (u16 "Ana María") (u16 "Núñez") (u16 "ana@example.com") None None)
           (mkPool 1 true) (Sql.ScopeIdentity 1)
           ltac:(vm_compute; reflexivity) ltac:(vm_compute; reflexivity)
           ltac:(vm_compute; reflexivity) ltac:(vm_compute; reflexivity))).
Defined.

Lemma post_duplicate_email_witness :
  fst (registrar db_retry req_ana w_ana) =
  Return (mkResponse 409
     (JObj [("success", JBool false);
            ("message", JStr (u16 "El correo electrónico ya está registrado"))]%string))
  /\ Sql.usuarios (db (snd (registrar db_retry req_ana w_ana))) = Sql.usuarios (db w_ana).
Proof.
  destruct (@post_duplicate_email isLength_units isEmail_at normalizeEmail_id
           db_retry req_ana
           (fst (Users.validationResult isLength_units isEmail_at normalizeEmail_id req_ana))
           w_ana w_ana (snd (registrar db_retry req_ana w_ana))
           (Users.mkCampos (u16 "Ana María") (u16 "Núñez") (u16 "ana@example.com") None None)
           (mkPool 1 true) Sql.unique_key_violation
           ltac:(vm_compute; reflexivity) ltac:(vm_compute; reflexivity)
           ltac:(vm_compute; reflexivity) ltac:(vm_compute; reflexivity)
           ltac:(left; reflexivity)) as [Hpost Hrows].
  unfold registrar. rewrite Hpost. split; [reflexivity | exact Hrows].
Defined.


(** ** Listing: [GET /api/users] *)

Lemma lex_compare_antisym (a b : list N) :
  lex_compare b a = CompOpp (lex_compare a b).
Proof.
  revert b. induction a as [|x a IH]; intros [|y b]; simpl; try reflexivity.
  rewrite (N.compare_antisym x y). destruct (x ?= y)%N; simpl; auto.
Qed.

Lemma lex_compare_eq (a b : list N) : lex_compare a b = Eq -> a = b.
Proof.
  revert b. induction a as [|x a IH]; intros [|y b]; simpl; try discriminate; auto.
  destruct (x ?= y)%N eqn:Hxy; try discriminate.
  apply N.compare_eq_iff in Hxy. intro H. f_equal; auto.
Qed.

Lemma lex_compare_lt_trans (a b c : list N) :
  lex_compare a b = Lt -> lex_compare b c = Lt -> lex_compare a c = Lt.
Proof.
  revert b c. induction a as [|x a IH]; intros [|y b] [|z c]; simpl;
    try discriminate; auto.
  destruct (x ?= y)%N eqn:Hxy; try discriminate;
    destruct (y ?= z)%N eqn:Hyz; try discriminate; intros H1 H2.
  - apply N.compare_eq_iff in Hxy, Hyz. subst. rewrite N.compare_refl. eauto.
  - apply N.compare_eq_iff in Hxy. subst. now rewrite Hyz.
  - apply N.compare_eq_iff in Hyz. subst. now rewrite Hxy.
  - rewrite N.compare_lt_iff in Hxy, Hyz.
    assert (Hxz : (x ?= z)%N = Lt) by (apply N.compare_lt_iff; lia).
    now rewrite Hxz.
Qed.

Lemma text_ge_trans (a b c : jsstring) : text_ge a b -> text_ge b c -> text_ge a c.
Proof.
  unfold text_ge, JS.compare. intros Hab Hbc Hac.
  destruct (lex_compare a b) eqn:Eab; [| contradiction |].
  - apply lex_compare_eq in Eab. subst. contradiction.
  - destruct (lex_compare b c) eqn:Ebc; [| contradiction |].
    + apply lex_compare_eq in Ebc. subst. congruence.
    + assert (Hcb : lex_compare c b = Lt) by (rewrite lex_compare_antisym, Ebc; reflexivity).
      assert (Hba : lex_compare b a = Lt) by (rewrite lex_compare_antisym, Eab; reflexivity).
      pose proof (lex_compare_lt_trans _ _ _ Hcb Hba) as Hca.
      rewrite lex_compare_antisym, Hac in Hca. discriminate.
Qed.

Section OrderBy.
Variable A : Type.
Variable key : A -> jsstring.

Local Abbreviation desc := (fun x y => text_ge (key x) (key y)).

Lemma insert_desc_perm (x : A) (l : list A) :
  Permutation (x :: l) (Sql.insert_desc key x l).
Proof.
  induction l as [|y l IH]; simpl; [reflexivity|].
  destruct (JS.compare (key x) (key y)); try reflexivity;
    (rewrite perm_swap; now apply perm_skip).
Qed.

Lemma order_by_desc_perm (l : list A) : Permutation (Sql.order_by_desc key l) l.
Proof.
  induction l as [|x l IH]; simpl; [constructor|].
  rewrite <- insert_desc_perm. now apply perm_skip.
Qed.

Lemma insert_desc_sorted (x : A) (l : list A) :
  Sorted desc l -> Sorted desc (Sql.insert_desc key x l).
Proof.
  induction l as [|y l IH]; simpl; intro Hs.
  - repeat constructor.
  - assert (Hyx : JS.compare (key x) (key y) <> Gt -> text_ge (key y) (key x)).
    { unfold text_ge, JS.compare. rewrite (lex_compare_antisym (key x) (key y)).
      destruct (lex_compare (key x) (key y)); simpl; congruence. }
    inversion Hs as [|y' l' Hl Hhd]; subst.
    destruct (JS.compare (key x) (key y)) eqn:Hc.
    + constructor; [now apply IH|].
      destruct l as [|z l]; simpl.
      * constructor. apply Hyx. congruence.
      * destruct (JS.compare (key x) (key z)); constructor;
          solve [apply Hyx; congruence | now inversion Hhd].
    + constructor; [now apply IH|].
      destruct l as [|z l]; simpl.
      * constructor. apply Hyx. congruence.
      * destruct (JS.compare (key x) (key z)); constructor;
          solve [apply Hyx; congruence | now inversion Hhd].
    + constructor; [assumption|]. constructor. unfold text_ge. congruence.
Qed.

Lemma order_by_desc_sorted (l : list A) :
  StronglySorted desc (Sql.order_by_desc key l).
Proof.
  apply Sorted_StronglySorted.
  - intros x y z. apply text_ge_trans.
  - induction l as [|x l IH]; simpl; [constructor|]. now apply insert_desc_sorted.
Qed.

End OrderBy.

(** X15.  What the listing query returns: every row of the table exactly
    once, with its time as formatted text, in descending order of that
    text (not of the time), and as many rows as the table holds. *)
Lemma select_usuarios_spec (rows : list Sql.usuario) :
  Permutation (Sql.select_usuarios rows) (map Sql.select_list rows)
  /\ StronglySorted
       (fun x y => text_ge (Sql.f_fecha_registro x) (Sql.f_fecha_registro y))
       (Sql.select_usuarios rows)
  /\ List.length (Sql.select_usuarios rows) = List.length rows.
Proof.
  unfold Sql.select_usuarios. split; [apply order_by_desc_perm|].
  split; [apply order_by_desc_sorted|].
  rewrite (Permutation_length (order_by_desc_perm Sql.f_fecha_registro _)).
  apply length_map.
Qed.

(** X14.  The listing handler, when the pool is acquired, the query meets
    no fault and the table exists: status 200, [count] the number of rows
    of the table and [data] the rows of the query. *)
Lemma get_listing (v : DbModule) (w w1 : World) (h : Pool) (rows : list Sql.usuario) :
  getPool v w = (Return (Some h), w1) ->
  query_fault (env w1) (queries w1) = None ->
  Sql.usuarios (db w1) = Some rows ->
  fst (Users.get v w) =
  Return (mkResponse 200
    (JObj [("success", JBool true);
           ("count", JNum (Z.of_nat (List.length rows)));
           ("data", JArr (map Users.fila_json (Sql.select_usuarios rows)))]%string)).
Proof.
  intros Hg Hf Hu. unfold Users.get, try_catch, bind at 1. rewrite Hg. simpl.
  unfold bind at 1. simpl. unfold bind at 1, query. rewrite Hf. simpl. rewrite Hu. simpl.
  unfold Sql.select_usuarios.
  rewrite (Permutation_length (order_by_desc_perm Sql.f_fecha_registro _)), length_map.
  reflexivity.
Qed.

(** C1.  Ana registers on 31/01/2024 at 10:00 (row 1) and Luis on
    01/02/2024 at 09:00 (row 2), so that row 2 is the most recent.  The
    listing returns both rows with the time as formatted text, and row 1
    comes first: the text ["31/01/2024 10:00"] sorts after
    ["01/02/2024 09:00"]. *)
Theorem listing_sorts_by_formatted_text :
  option_map (map (fun u => (Sql.id u, Sql.fecha_registro u))) (Sql.usuarios (db w_luis))
  = Some [(1%Z, mkDateTime 2024 1 31 10 0 0 0); (2%Z, mkDateTime 2024 2 1 9 0 0 0)]
  /\ later (mkDateTime 2024 2 1 9 0 0 0) (mkDateTime 2024 1 31 10 0 0 0) = true
  /\ fst (Users.get db_retry w_luis) =
     Return (mkResponse 200
       (JObj [("success", JBool true);
              ("count", JNum 2);
              ("data", JArr
                 [JObj [("id", JNum 1); ("nombre", JStr (u16 "Ana María"));
                        ("apellido", JStr (u16 "Núñez"));
                        ("email", JStr (u16 "ana@example.com"));
                        ("telefono", JNull); ("pais", JNull);
                        ("fecha_registro", JStr (u16 "31/01/2024 10:00"))];
                  JObj [("id", JNum 2); ("nombre", JStr (u16 "Luis"));
                        ("apellido", JStr (u16 "Pérez"));
                        ("email", JStr (u16 "luis@example.com"));
                        ("telefono", JStr (u16 "+504 9999-0000"));
                        ("pais", JStr (u16 "Honduras"));
                        ("fecha_registro", JStr (u16 "01/02/2024 09:00"))]])]%string)).
Proof. repeat split; vm_compute; reflexivity. Qed.

(* ================================================================= *)
(** * Further properties *)

(** ** The pool manager *)

Lemma DbRetry_three_attempts_witness :
  DbRetry.getPool (boot env_down) =
  (Throw connection_refused,
   mkWorld None 3 0 Sql.empty
     [EvConnect 0; EvConsoleLog [DbRetry.intento 0 connection_refused]; EvSetTimeout 3000;
      EvConnect 1; EvConsoleLog [DbRetry.intento 1 connection_refused]; EvSetTimeout 3000;
      EvConnect 2; EvConsoleLog [DbRetry.intento 2 connection_refused]]
     env_down).
Proof.
  apply (@DbRetry_three_attempts (boot env_down)
           connection_refused connection_refused connection_refused); reflexivity.
Defined.

(** A stale handle, a first reconnection refused and a second one granted:
    the handle returned is the one the second call resolved to. *)
Lemma DbRetry_reconnects_witness :
  ((exists evs, trace (snd (DbRetry.getPool stale_retry_world))
               = trace stale_retry_world ++ EvConnect (connects stale_retry_world) :: evs) /\
  match fst (DbRetry.getPool stale_retry_world) with
  | Return x =>
    exists i k,
      x = Some (mkPool i true)
      /\ connects stale_retry_world <= k < DbRetry.maxRetries + connects stale_retry_world
      /\ connect_outcome (env stale_retry_world) k = Resolves i
      /\ (forall j, connects stale_retry_world <= j < k ->
                    exists e, connect_outcome (env stale_retry_world) j = Rejects e)
      /\ connects (snd (DbRetry.getPool stale_retry_world)) = S k
      /\ pool (snd (DbRetry.getPool stale_retry_world)) = x
      /\ x <> Some (mkPool 1 false)
  | Throw e =>
    connect_outcome (env stale_retry_world) (S (S (connects stale_retry_world))) = Rejects e
    /\ (forall j, connects stale_retry_world <= j
                  < DbRetry.maxRetries + connects stale_retry_world ->
                  exists e', connect_outcome (env stale_retry_world) j = Rejects e')
    /\ connects (snd (DbRetry.getPool stale_retry_world))
       = DbRetry.maxRetries + connects stale_retry_world
    /\ pool (snd (DbRetry.getPool stale_retry_world)) = None
  end)
  /\ fst (DbRetry.getPool stale_retry_world) = Return (Some (mkPool 3 true)).
Proof.
  split; [|reflexivity].
  apply (@DbRetry_reconnects stale_retry_world (mkPool 1 false)); reflexivity.
Defined.

(** X3.  The retrying version with no cached handle recovers from one or
    two rejections: when the second attempt (or, after a second rejection,
    the third) resolves, the call returns the new handle and caches it; each
    rejection before it left one console line and one 3000 ms timer, and no
    timer follows the successful attempt. *)
Theorem DbRetry_recovers (w : World) (e1 : JsError) :
  pool w = None ->
  connect_outcome (env w) (connects w) = Rejects e1 ->
  (forall i,
     connect_outcome (env w) (S (connects w)) = Resolves i ->
     DbRetry.getPool w =
     (Return (Some (mkPool i true)),
      mkWorld (Some (mkPool i true)) (2 + connects w) (queries w) (db w)
        (trace w ++
         [EvConnect (connects w); EvConsoleLog [DbRetry.intento 0 e1]; EvSetTimeout 3000;
          EvConnect (1 + connects w)])
        (env w)))
  /\
  (forall e2 i,
     connect_outcome (env w) (S (connects w)) = Rejects e2 ->
     connect_outcome (env w) (S (S (connects w))) = Resolves i ->
     DbRetry.getPool w =
     (Return (Some (mkPool i true)),
      mkWorld (Some (mkPool i true)) (3 + connects w) (queries w) (db w)
        (trace w ++
         [EvConnect (connects w); EvConsoleLog [DbRetry.intento 0 e1]; EvSetTimeout 3000;
          EvConnect (1 + connects w); EvConsoleLog [DbRetry.intento 1 e2]; EvSetTimeout 3000;
          EvConnect (2 + connects w)])
        (env w))).
Proof.
  intros Hp H1. split.
  - intros i H2.
    unfold DbRetry.getPool, bind, read_pool. rewrite Hp. simpl.
    unfold bind, try_catch, sql_connect, console_log, write_pool, await_setTimeout,
      throw, ret, emit, set_pool, read_pool. rewrite Hp. simpl.
    rewrite H1. simpl. rewrite H2. simpl.
    repeat rewrite <- app_assoc. reflexivity.
  - intros e2 i H2 H3.
    unfold DbRetry.getPool, bind, read_pool. rewrite Hp. simpl.
    unfold bind, try_catch, sql_connect, console_log, write_pool, await_setTimeout,
      throw, ret, emit, set_pool, read_pool. rewrite Hp. simpl.
    rewrite H1. simpl. rewrite H2. simpl. rewrite H3. simpl.
    repeat rewrite <- app_assoc. reflexivity.
Qed.

Lemma DbRetry_recovers_witness :
  DbRetry.getPool (boot env_wakes) =
  (Return (Some (mkPool 1 true)),
   mkWorld (Some (mkPool 1 true)) 2 0 Sql.empty
     [EvConnect 0; EvConsoleLog [DbRetry.intento 0 connection_refused]; EvSetTimeout 3000;
      EvConnect 1]
     env_wakes).
Proof.
  exact (proj1 (@DbRetry_recovers (boot env_wakes) connection_refused eq_refl eq_refl)
               1%nat eq_refl).
Defined.

(** [db.js] with no cached handle: one call to [sql.connect], whose
    handle is cached and returned, or whose rejection is thrown. *)
Lemma DbJs_getPool_fresh (w : World) :
  pool w = None ->
  DbJs.getPool w =
  match connect_outcome (env w) (connects w) with
  | Resolves i =>
    (Return (Some (mkPool i true)),
     mkWorld (Some (mkPool i true)) (S (connects w)) (queries w) (db w)
             (trace w ++ [EvConnect (connects w)]) (env w))
  | Rejects e =>
    (Throw e,
     mkWorld None (S (connects w)) (queries w) (db w)
             (trace w ++ [EvConnect (connects w)]) (env w))
  end.
Proof.
  intro Hp. unfold DbJs.getPool, bind, read_pool, write_pool, sql_connect, ret, set_pool.
  rewrite Hp. simpl. rewrite Hp.
  destruct (connect_outcome (env w) (connects w)); reflexivity.
Qed.

(** What one call to [getPool] adds to the trace, by cases. *)
Lemma getPool_events (v : DbModule) (w : World) :
  exists evs,
    trace (snd (getPool v w)) = trace w ++ evs
    /\ connects (snd (getPool v w)) = (connects w + count is_connect evs)%nat
    /\ (count is_connect evs <= match v with db_js => 1 | db_retry => 3 end)%nat
    /\ (count is_timer evs = match fst (getPool v w) with
                              | Return _ => count is_connect evs - 1
                              | Throw _ => match v with db_js => 0 | db_retry => 2 end
                              end)%nat
    /\ timers_of_3000 evs.
Proof.
  assert (Hnil : forall w0 : World, trace w0 = trace w0 ++ []) by
    (intro; now rewrite app_nil_r).
  assert (Hfresh : forall w0, pool w0 = None ->
    exists evs,
      trace (snd (DbRetry.getPool w0)) = trace w0 ++ evs
      /\ connects (snd (DbRetry.getPool w0)) = (connects w0 + count is_connect evs)%nat
      /\ (count is_connect evs <= 3)%nat
      /\ (count is_timer evs = match fst (DbRetry.getPool w0) with
                                | Return _ => count is_connect evs - 1
                                | Throw _ => 2
                                end)%nat
      /\ timers_of_3000 evs).
  { intros w0 Hp.
    unfold DbRetry.getPool, bind, read_pool. rewrite Hp. simpl.
    unfold bind, try_catch, sql_connect, console_log, write_pool, await_setTimeout,
      throw, ret, emit, set_pool, read_pool. rewrite Hp. simpl.
    destruct (connect_outcome (env w0) (connects w0)); simpl.
    { eexists. split; [reflexivity|]. unfold timers_of_3000. cbn.
      repeat split; try lia. repeat constructor. }
    destruct (connect_outcome (env w0) (S (connects w0))); simpl.
    { repeat rewrite <- app_assoc. simpl.
      eexists. split; [reflexivity|]. unfold timers_of_3000. cbn.
      repeat split; try lia. repeat constructor. }
    destruct (connect_outcome (env w0) (S (S (connects w0)))); simpl.
    { repeat rewrite <- app_assoc. simpl.
      eexists. split; [reflexivity|]. unfold timers_of_3000. cbn.
      repeat split; try lia. repeat constructor. }
    repeat rewrite <- app_assoc. simpl.
    eexists. split; [reflexivity|]. unfold timers_of_3000. cbn.
    repeat split; try lia. repeat constructor. }
  destruct v; simpl.
  - unfold DbJs.getPool, bind, read_pool, write_pool, sql_connect, ret, set_pool.
    destruct (pool w) as [h|] eqn:Hp; simpl.
    + exists []. try rewrite Hp. simpl. unfold timers_of_3000. cbn.
      repeat split; try lia; auto.
    + destruct (connect_outcome (env w) (connects w)); simpl;
        (eexists; split; [reflexivity|]; unfold timers_of_3000; cbn;
         repeat split; try lia; repeat constructor).
  - destruct (pool w) as [h|] eqn:Hp; [|now apply Hfresh].
    destruct (connected h) eqn:Hc.
    + pose proof (getPool_cached db_retry w Hp Hc) as Hg. simpl in Hg. rewrite Hg.
      exists []. unfold timers_of_3000. cbn. repeat split; try lia; auto.
    + rewrite (DbRetry_discards_stale w Hp Hc).
      destruct (Hfresh (set_pool None w) eq_refl) as [evs H]. now exists evs.
Qed.

(** X4.  One call to [getPool] makes at most three calls to [sql.connect]
    in the retrying version and at most one in [db.js]; it sets at most two
    timers, each of 3000 ms, and a call that returns set one timer fewer
    than it made connection attempts (none when the cached handle was
    returned). *)
Theorem getPool_bounded (v : DbModule) (w : World) :
  (connects w <= connects (snd (getPool v w))
   <= connects w + match v with db_js => 1 | db_retry => 3 end)%nat
  /\ exists evs,
       trace (snd (getPool v w)) = trace w ++ evs
       /\ count is_connect evs = (connects (snd (getPool v w)) - connects w)%nat
       /\ (count is_timer evs <= 2)%nat
       /\ (forall x, fst (getPool v w) = Return x ->
                      count is_timer evs = count is_connect evs - 1)%nat
       /\ timers_of_3000 evs.
Proof.
  destruct (getPool_events v w) as [evs [Ht [Hc [Hb [Hn H3]]]]].
  split; [destruct v; lia|].
  exists evs. repeat split; try assumption; try lia.
  - destruct (fst (getPool v w)); destruct v; lia.
  - intros x Hx. now rewrite Hx in Hn.
Qed.

(** X5.  What [getPool] returns is what it leaves cached, and the next
    call returns the same handle and changes nothing; a call that throws
    leaves no handle cached.  Both versions. *)
Theorem getPool_caches (v : DbModule) (w : World) :
  (forall x, fst (getPool v w) = Return x ->
     pool (snd (getPool v w)) = x
     /\ getPool v (snd (getPool v w)) = (Return x, snd (getPool v w)))
  /\ (forall e, fst (getPool v w) = Throw e -> pool (snd (getPool v w)) = None).
Proof.
  assert (Hfresh : forall w0, pool w0 = None ->
    (forall x, fst (DbRetry.getPool w0) = Return x ->
       pool (snd (DbRetry.getPool w0)) = x
       /\ DbRetry.getPool (snd (DbRetry.getPool w0)) = (Return x, snd (DbRetry.getPool w0)))
    /\ (forall e, fst (DbRetry.getPool w0) = Throw e ->
                  pool (snd (DbRetry.getPool w0)) = None)).
  { intros w0 Hp0.
    destruct (DbRetry_fresh_cases w0 Hp0) as [[i [Hr Hq]]|[e0 [Hr Hq]]]; rewrite Hr; split.
    - intros x H. injection H as <-. split; [assumption|].
      exact (getPool_cached db_retry _ Hq eq_refl).
    - discriminate.
    - discriminate.
    - intros _ _. assumption. }
  destruct v; simpl.
  - destruct (pool w) as [h|] eqn:Hp.
    + rewrite (DbJs_getPool_cached w Hp). simpl. split; [|discriminate].
      intros x H. injection H as <-. split; [assumption|].
      now apply DbJs_getPool_cached.
    + rewrite (DbJs_getPool_fresh w Hp).
      destruct (connect_outcome (env w) (connects w)); simpl; split;
        try discriminate; try (intros; reflexivity).
      intros x H. injection H as <-. split; [reflexivity|].
      now apply DbJs_getPool_cached.
  - destruct (pool w) as [h|] eqn:Hp; [|now apply Hfresh].
    destruct (connected h) eqn:Hc.
    + pose proof (getPool_cached db_retry w Hp Hc) as Hg. simpl in Hg. rewrite Hg. simpl.
      split; [|discriminate]. intros x H. injection H as <-. now split.
    + rewrite (DbRetry_discards_stale w Hp Hc). now apply Hfresh.
Qed.

Lemma getPool_caches_witness :
  pool (snd (getPool db_retry (boot env_wakes))) = Some (mkPool 1 true)
  /\ getPool db_retry (snd (getPool db_retry (boot env_wakes)))
     = (Return (Some (mkPool 1 true)), snd (getPool db_retry (boot env_wakes)))
  /\ pool (snd (getPool db_retry (boot env_down))) = None.
Proof.
  destruct (proj1 (getPool_caches db_retry (boot env_wakes)) (Some (mkPool 1 true)) eq_refl)
    as [H1 H2].
  exact (conj H1 (conj H2
           (proj2 (getPool_caches db_retry (boot env_down)) connection_refused eq_refl))).
Defined.

(** ** Registration: every way the handler ends *)

(** A successful insert adds one row at the end of the table: the next
    identity value, the parameters, the server time of the query. *)
Lemma query_insert_adds_row (h : Pool) (c : Users.Campos) (w w' : World)
      (rs : Sql.recordset) :
  query h (Users.insert_usuario c) w = (Return rs, w') ->
  exists rows,
    Sql.usuarios (db w) = Some rows
    /\ Sql.email_taken (Users.c_email c) rows = false
    /\ db w' = Sql.mkDatabase
                 (Some (rows ++ [fila_nueva (Sql.identity (db w)) c
                                            (GETDATE (env w) (queries w))]))
                 (Sql.identity (db w) + 1).
Proof.
  unfold query, Users.insert_usuario.
  destruct (query_fault (env w) (queries w)) as [f|]; [discriminate|].
  simpl. destruct (Sql.usuarios (db w)) as [rows|] eqn:Hu; [|discriminate].
  destruct (Sql.email_taken (Users.c_email c) rows) eqn:Ht; [discriminate|].
  intro H. injection H as _ <-. simpl. exists rows.
  split; [reflexivity|]. split; [exact Ht | reflexivity].
Qed.

Section Respuestas.
Variable isLength : option N -> option N -> jsstring -> bool.
Variable isEmail : jsstring -> bool.
Variable normalizeEmail : jsstring -> value.

Local Abbreviation validationResult :=
  (Users.validationResult isLength isEmail normalizeEmail).
Local Abbreviation post := (Users.post isLength isEmail normalizeEmail).

(** The handler, step by step. *)
Lemma post_run (v : DbModule) (req : ExpressValidator.Body) (w : World) :
  post v req w =
  match snd (validationResult req) with
  | _ :: _ => (Return (respuesta_validacion (snd (validationResult req))), w)
  | [] =>
    match fst (Users.sanitizar (fst (validationResult req)) w) with
    | Throw e => post_catch e w
    | Return c =>
      match getPool v w with
      | (Throw e, w1) => post_catch e w1
      | (Return None, w1) =>
        post_catch (type_error "Cannot read properties of null (reading 'request')") w1
      | (Return (Some h), w1) =>
        match query h (Users.insert_usuario c) w1 with
        | (Throw e, w2) => post_catch e w2
        | (Return _, w2) => (Return (respuesta_creado (Sql.identity (db w)) c), w2)
        end
      end
    end
  end.
Proof.
  unfold Users.post. destruct (validationResult req) as [b errors]. simpl.
  destruct errors as [|m ms]; [|reflexivity]. simpl.
  unfold try_catch, bind at 1.
  pose proof (sanitizar_pure b w) as Hp.
  destruct (Users.sanitizar b w) as [[c|e] w0]; simpl in *; subst w0; [|reflexivity].
  unfold bind at 1.
  pose proof (getPool_keeps_db v w) as [Hd _].
  destruct (getPool v w) as [[[h|]|e] w1]; simpl in *; try reflexivity.
  unfold bind at 1. simpl. unfold bind at 1.
  pose proof (@query_insert_returns_identity h (Users.c_nombre c) (Users.c_apellido c)
                (Users.c_email c) (Users.c_telefono c) (Users.c_pais c) w1) as Hq.
  fold (Users.insert_usuario c) in Hq.
  destruct (query h (Users.insert_usuario c) w1) as [[rs|e] w2]; [|reflexivity].
  rewrite (Hq w2 rs eq_refl), Hd. reflexivity.
Qed.

Lemma post_catch_cases (e : JsError) (w : World) :
  post_catch e w = (Return respuesta_duplicado, w)
  \/ post_catch e w
     = (Return respuesta_error_interno,
        emit (EvConsoleError [u16 "Error al registrar usuario:"; err_message e]) w).
Proof.
  unfold post_catch. destruct (Users.es_duplicado e); [left | right]; reflexivity.
Qed.

(** X6.  The registration handler always answers, and in one of four
    ways.  400 with the validation messages, the world untouched.  201
    with the new identity value and the inserted fields, the world being
    the one the insert left.  Otherwise the [try] block threw an error [e]
    and left a world [w0]: when [e] carries the number of a duplicate key
    the answer is the fixed 409 body and the world is [w0]; when it does
    not, the answer is the fixed 500 body and the world is [w0] with one
    more event, the console line that carries the message of [e], which
    the body never holds. *)
Theorem post_responds (v : DbModule) (req : ExpressValidator.Body) (w : World) :
  exists r,
    fst (post v req w) = Return r
    /\ ((r = respuesta_validacion (snd (validationResult req))
         /\ snd (validationResult req) <> [] /\ snd (post v req w) = w)
        \/ (exists c, r = respuesta_creado (Sql.identity (db w)) c
                      /\ snd (validationResult req) = []
                      /\ fst (Users.sanitizar (fst (validationResult req)) w) = Return c
                      /\ exists h w1 rs,
                           getPool v w = (Return (Some h), w1)
                           /\ query h (Users.insert_usuario c) w1
                              = (Return rs, snd (post v req w)))
        \/ (exists e w0,
              snd (validationResult req) = []
              /\ registro_lanza v (fst (validationResult req)) w e w0
              /\ ((Users.es_duplicado e = true
                   /\ r = respuesta_duplicado
                   /\ snd (post v req w) = w0)
                  \/ (Users.es_duplicado e = false
                      /\ r = respuesta_error_interno
                      /\ snd (post v req w)
                         = emit (EvConsoleError [u16 "Error al registrar usuario:";
                                                 err_message e]) w0)))).
Proof.
  assert (Hc : forall e w0,
    exists r, fst (post_catch e w0) = Return r
      /\ ((Users.es_duplicado e = true
           /\ r = respuesta_duplicado /\ snd (post_catch e w0) = w0)
          \/ (Users.es_duplicado e = false
              /\ r = respuesta_error_interno
              /\ snd (post_catch e w0)
                 = emit (EvConsoleError [u16 "Error al registrar usuario:";
                                         err_message e]) w0))).
  { intros e w0. unfold post_catch. destruct (Users.es_duplicado e).
    - exists respuesta_duplicado. split; [reflexivity|]. left.
      split; [reflexivity|]. split; reflexivity.
    - exists respuesta_error_interno. split; [reflexivity|]. right.
      split; [reflexivity|]. split; reflexivity. }
  rewrite post_run.
  destruct (snd (validationResult req)) as [|m ms] eqn:He.
  2: { exists (respuesta_validacion (m :: ms)). split; [reflexivity|]. left.
       split; [reflexivity|]. split; [discriminate | reflexivity]. }
  destruct (fst (Users.sanitizar (fst (validationResult req)) w)) as [c|e] eqn:Hs.
  2: { destruct (Hc e w) as [r [Hr Hk]]. exists r. split; [exact Hr|].
       right; right. exists e, w. split; [reflexivity|].
       split; [left; split; [exact Hs | reflexivity] | exact Hk]. }
  pose proof (@getPool_returns_handle v w) as Hh.
  destruct (getPool v w) as [[[h|]|e] w1] eqn:Hg.
  - destruct (query h (Users.insert_usuario c) w1) as [[rs|e] w2] eqn:Hq.
    + exists (respuesta_creado (Sql.identity (db w)) c). split; [reflexivity|].
      right; left. exists c. split; [reflexivity|]. split; [reflexivity|].
      split; [reflexivity|]. exists h, w1, rs. split; [reflexivity | exact Hq].
    + destruct (Hc e w2) as [r [Hr Hk]]. exists r. split; [exact Hr|].
      right; right. exists e, w2. split; [reflexivity|]. split; [|exact Hk].
      right. exists c. split; [exact Hs|]. right. exists h, w1.
      split; [exact Hg | exact Hq].
  - destruct (Hh None eq_refl) as [h Hn]. discriminate Hn.
  - destruct (Hc e w1) as [r [Hr Hk]]. exists r. split; [exact Hr|].
    right; right. exists e, w1. split; [reflexivity|]. split; [|exact Hk].
    right. exists c. split; [exact Hs|]. left. exact Hg.
Qed.


End Respuestas.

(** ** Registration: optional fields that are falsy *)

Lemma query_trace (h : Pool) (s : Sql.statement) (w : World) :
  trace (snd (query h s w)) = trace w ++ [EvQuery h s].
Proof.
  unfold query. destruct (query_fault (env w) (queries w)); [reflexivity|].
  destruct (Sql.run s (GETDATE (env w) (queries w)) (db w)) as [r d]. reflexivity.
Qed.

Section Opcionales.
Variable isLength : option N -> option N -> jsstring -> bool.
Variable isEmail : jsstring -> bool.
Variable normalizeEmail : jsstring -> value.

Local Abbreviation validationResult :=
  (Users.validationResult isLength isEmail normalizeEmail).
Local Abbreviation post := (Users.post isLength isEmail normalizeEmail).
Local Abbreviation regla_telefono := Users.regla_telefono.
Local Abbreviation regla_pais := (Users.regla_pais isLength).
Local Abbreviation run_field c v :=
  (ExpressValidator.run_stack (ExpressValidator.optional_checkFalsy c)
                              (ExpressValidator.stack c) v).

(** A request that passes validation, whose constants are computed and
    whose pool is acquired: the first thing the handler does next is to
    send the insert with the five constants as parameters, and a 201 answer
    means that the row with these constants is now the last of the table. *)
Lemma post_sends_insert (v : DbModule) (req : ExpressValidator.Body) (w w1 : World)
      (c : Users.Campos) (h : Pool) :
  snd (validationResult req) = [] ->
  fst (Users.sanitizar (fst (validationResult req)) w) = Return c ->
  getPool v w = (Return (Some h), w1) ->
  (exists tail,
     trace (snd (post v req w)) = trace w1 ++ EvQuery h (Users.insert_usuario c) :: tail)
  /\ (forall r, fst (post v req w) = Return r -> status r = 201%Z ->
       exists rows,
         Sql.usuarios (db (snd (post v req w)))
         = Some (rows ++ [fila_nueva (Sql.identity (db w)) c
                                     (GETDATE (env w) (queries w))])).
Proof.
  intros He Hs Hg. rewrite post_run, He, Hs, Hg.
  pose proof (getPool_keeps_db v w) as [Hd Hq].
  pose proof (getPool_confined v w) as [Henv _].
  rewrite Hg in Hd, Hq, Henv. cbn [snd] in Hd, Hq, Henv.
  pose proof (query_trace h (Users.insert_usuario c) w1) as Ht.
  destruct (query h (Users.insert_usuario c) w1) as [[rs|e] w2] eqn:Hquery;
    cbn [snd] in Ht.
  - split.
    + exists []. exact Ht.
    + intros r _ _. cbn [snd].
      destruct (query_insert_adds_row h c w1 Hquery) as [rows [Hu [_ Hdb]]].
      exists rows. rewrite Hdb, Hd, Hq, Henv. reflexivity.
  - split.
    + destruct (post_catch_cases e w2) as [H|H]; rewrite H; cbn [snd emit trace].
      * exists []. exact Ht.
      * eexists. rewrite Ht, <- app_assoc. reflexivity.
    + intros r Hr Hst. exfalso.
      destruct (post_catch_cases e w2) as [H|H]; rewrite H in Hr; cbn [fst] in Hr;
        injection Hr as <-; discriminate Hst.
Qed.

(** C10.  A [telefono] (and likewise a [pais]) that is present but falsy:
    no item of its chain runs, so the field adds no message and keeps its
    value; the messages of the whole validation are those of the request
    without the field; the constant the handler computes for it is [null];
    the handler answers and leaves the world exactly as it does for the
    request without the field; and when the request passes validation and
    the pool is acquired, the handler sends the INSERT with NULL as the
    parameter of the field, so that after a 201 answer the new row, the
    last of the table, holds NULL in that column. *)
Theorem optional_falsy_as_omitted
  (v : DbModule) (req : ExpressValidator.Body) (w : World) :
  (falsy (ExpressValidator.telefono req) = true ->
   let omitted := ExpressValidator.set ExpressValidator.p_telefono VUndefined req in
   run_field regla_telefono (ExpressValidator.telefono req)
   = (ExpressValidator.telefono req, [])
   /\ snd (validationResult req) = snd (validationResult omitted)
   /\ (forall c, fst (Users.sanitizar (fst (validationResult req)) w) = Return c ->
                 Users.c_telefono c = None)
   /\ post v req w = post v omitted w
   /\ (forall c h w1,
         snd (validationResult req) = [] ->
         fst (Users.sanitizar (fst (validationResult req)) w) = Return c ->
         getPool v w = (Return (Some h), w1) ->
         (exists tail,
            trace (snd (post v req w))
            = trace w1
              ++ EvQuery h (Sql.InsertUsuario (Users.c_nombre c) (Users.c_apellido c)
                                              (Users.c_email c) None (Users.c_pais c))
                 :: tail)
         /\ (forall r, fst (post v req w) = Return r -> status r = 201%Z ->
              exists rows u,
                Sql.usuarios (db (snd (post v req w))) = Some (rows ++ [u])
                /\ Sql.id u = Sql.identity (db w)
                /\ Sql.email u = Users.c_email c
                /\ Sql.telefono u = None)))
  /\
  (falsy (ExpressValidator.pais req) = true ->
   let omitted := ExpressValidator.set ExpressValidator.p_pais VUndefined req in
   run_field regla_pais (ExpressValidator.pais req)
   = (ExpressValidator.pais req, [])
   /\ snd (validationResult req) = snd (validationResult omitted)
   /\ (forall c, fst (Users.sanitizar (fst (validationResult req)) w) = Return c ->
                 Users.c_pais c = None)
   /\ post v req w = post v omitted w
   /\ (forall c h w1,
         snd (validationResult req) = [] ->
         fst (Users.sanitizar (fst (validationResult req)) w) = Return c ->
         getPool v w = (Return (Some h), w1) ->
         (exists tail,
            trace (snd (post v req w))
            = trace w1
              ++ EvQuery h (Sql.InsertUsuario (Users.c_nombre c) (Users.c_apellido c)
                                              (Users.c_email c) (Users.c_telefono c) None)
                 :: tail)
         /\ (forall r, fst (post v req w) = Return r -> status r = 201%Z ->
              exists rows u,
                Sql.usuarios (db (snd (post v req w))) = Some (rows ++ [u])
                /\ Sql.id u = Sql.identity (db w)
                /\ Sql.email u = Users.c_email c
                /\ Sql.pais u = None))).
Proof.
  split; intros Hf omitted; subst omitted.
  - pose proof (run_stack_falsy (ExpressValidator.stack regla_telefono) _ Hf) as Hr.
    split; [exact Hr|].
    assert (Hnull : forall c,
              fst (Users.sanitizar (fst (validationResult req)) w) = Return c ->
              Users.c_telefono c = None).
    { rewrite validationResult_fields. cbn [fst].
      cbn [ExpressValidator.optional_checkFalsy Users.regla_telefono] in Hr |- *.
      rewrite Hr. cbn [fst].
      match goal with
      | |- forall c, fst (Users.sanitizar ?b w) = _ -> _ =>
        destruct (sanitizar_telefono_falsy b Hf) as [_ Hn]
      end.
      intros c Hc. exact (Hn w c Hc). }
    assert (Hrest :
      snd (validationResult req)
      = snd (validationResult (ExpressValidator.set ExpressValidator.p_telefono VUndefined req))
      /\ post v req w
         = post v (ExpressValidator.set ExpressValidator.p_telefono VUndefined req) w).
    { unfold Users.post. rewrite !validationResult_fields. simpl ExpressValidator.set.
      cbn [ExpressValidator.nombre ExpressValidator.apellido ExpressValidator.email
           ExpressValidator.telefono ExpressValidator.pais].
      cbn [ExpressValidator.optional_checkFalsy Users.regla_telefono] in Hr |- *.
      rewrite Hr, (run_stack_falsy _ VUndefined eq_refl). cbn [fst snd].
      split; [reflexivity|].
      match goal with
      | |- context [Users.sanitizar ?b] =>
        destruct (sanitizar_telefono_falsy b Hf) as [Hs _]
      end.
      simpl ExpressValidator.set in Hs. rewrite Hs. reflexivity. }
    destruct Hrest as [He Hp].
    split; [exact He|]. split; [exact Hnull|]. split; [exact Hp|].
    intros c h w1 Hv Hs Hg.
    destruct (post_sends_insert v req w Hv Hs Hg) as [[tail Ht] Hrow].
    specialize (Hnull c Hs). unfold Users.insert_usuario in Ht. rewrite Hnull in Ht.
    split; [now exists tail|].
    intros r Hret Hst. destruct (Hrow r Hret Hst) as [rows Hu].
    exists rows, (fila_nueva (Sql.identity (db w)) c (GETDATE (env w) (queries w))).
    split; [exact Hu|]. split; [reflexivity|]. split; [reflexivity | exact Hnull].
  - pose proof (run_stack_falsy (ExpressValidator.stack regla_pais) _ Hf) as Hr.
    split; [exact Hr|].
    assert (Hnull : forall c,
              fst (Users.sanitizar (fst (validationResult req)) w) = Return c ->
              Users.c_pais c = None).
    { rewrite validationResult_fields. cbn [fst].
      cbn [ExpressValidator.optional_checkFalsy Users.regla_pais] in Hr |- *.
      rewrite Hr. cbn [fst].
      match goal with
      | |- forall c, fst (Users.sanitizar ?b w) = _ -> _ =>
        destruct (sanitizar_pais_falsy b Hf) as [_ Hn]
      end.
      intros c Hc. exact (Hn w c Hc). }
    assert (Hrest :
      snd (validationResult req)
      = snd (validationResult (ExpressValidator.set ExpressValidator.p_pais VUndefined req))
      /\ post v req w
         = post v (ExpressValidator.set ExpressValidator.p_pais VUndefined req) w).
    { unfold Users.post. rewrite !validationResult_fields. simpl ExpressValidator.set.
      cbn [ExpressValidator.nombre ExpressValidator.apellido ExpressValidator.email
           ExpressValidator.telefono ExpressValidator.pais].
      cbn [ExpressValidator.optional_checkFalsy Users.regla_pais] in Hr |- *.
      rewrite Hr, (run_stack_falsy _ VUndefined eq_refl). cbn [fst snd].
      split; [reflexivity|].
      match goal with
      | |- context [Users.sanitizar ?b] =>
        destruct (sanitizar_pais_falsy b Hf) as [Hs _]
      end.
      simpl ExpressValidator.set in Hs. rewrite Hs. reflexivity. }
    destruct Hrest as [He Hp].
    split; [exact He|]. split; [exact Hnull|]. split; [exact Hp|].
    intros c h w1 Hv Hs Hg.
    destruct (post_sends_insert v req w Hv Hs Hg) as [[tail Ht] Hrow].
    specialize (Hnull c Hs). unfold Users.insert_usuario in Ht. rewrite Hnull in Ht.
    split; [now exists tail|].
    intros r Hret Hst. destruct (Hrow r Hret Hst) as [rows Hu].
    exists rows, (fila_nueva (Sql.identity (db w)) c (GETDATE (env w) (queries w))).
    split; [exact Hu|]. split; [reflexivity|]. split; [reflexivity | exact Hnull].
Qed.

End Opcionales.

(** Luis registers with an empty [telefono] and [pais] 0 after Ana: the
    handler behaves as for the request without the two fields, the insert
    it sends carries NULL for both, and the answer is 201. *)
Lemma optional_falsy_as_omitted_witness :
  registrar db_retry req_opcionales_falsy w_ana
  = registrar db_retry
      (ExpressValidator.set ExpressValidator.p_telefono VUndefined req_opcionales_falsy) w_ana
  /\ registrar db_retry req_opcionales_falsy w_ana
     = registrar db_retry
         (ExpressValidator.set ExpressValidator.p_pais VUndefined req_opcionales_falsy) w_ana
  /\ (exists tail,
        trace (snd (registrar db_retry req_opcionales_falsy w_ana))
        = trace w_ana
          ++ EvQuery (mkPool 1 true)
                     (Sql.InsertUsuario (u16 "Luis") (u16 "Pérez") (u16 "luis@example.com")
                                        None None)
             :: tail)
  /\ status_of (fst (registrar db_retry req_opcionales_falsy w_ana)) = Some 201%Z.
Proof.
  destruct (@optional_falsy_as_omitted isLength_units isEmail_at normalizeEmail_id
              db_retry req_opcionales_falsy w_ana) as [Ht Hp].
  destruct (Ht eq_refl) as [_ [_ [_ [Ht4 Ht5]]]].
  destruct (Hp eq_refl) as [_ [_ [_ [Hp4 _]]]].
  split; [exact Ht4|]. split; [exact Hp4|]. split.
  - exact (proj1 (Ht5 (Users.mkCampos (u16 "Luis") (u16 "Pérez") (u16 "luis@example.com")
                                      None None)
                      (mkPool 1 true) w_ana
                      ltac:(vm_compute; reflexivity) ltac:(vm_compute; reflexivity)
                      ltac:(vm_compute; reflexivity))).
  - vm_compute. reflexivity.
Defined.

(** ** Registration: what the validation rules let through *)

Lemma ltrim_idempotent (s : jsstring) : ltrim (ltrim s) = ltrim s.
Proof.
  induction s as [|c r IH]; simpl; [reflexivity|].
  destruct (is_space c) eqn:Hc; [exact IH|]. simpl. now rewrite Hc.
Qed.

Lemma ltrim_head (s : jsstring) :
  ltrim s = [] \/ exists c r, ltrim s = c :: r /\ is_space c = false.
Proof.
  induction s as [|c r IH]; simpl; [now left|].
  destruct (is_space c) eqn:Hc; [exact IH|]. right. eauto.
Qed.

Lemma ltrim_keeps_last (a : jsstring) (c : N) :
  is_space c = false -> exists a', ltrim (a ++ [c]) = a' ++ [c].
Proof.
  intro Hc. induction a as [|x a IH]; simpl.
  - rewrite Hc. now exists [].
  - destruct (is_space x); [exact IH|]. now exists (x :: a).
Qed.

(** Trimming twice is trimming once: the handler's [.trim()] finds nothing
    left to strip after the [trim] sanitizer. *)
Lemma trim_idempotent (s : jsstring) : trim (trim s) = trim s.
Proof.
  unfold trim.
  assert (Hl : ltrim (rev (ltrim (rev (ltrim s)))) = rev (ltrim (rev (ltrim s)))).
  { destruct (ltrim_head s) as [-> | [c [r [-> Hc]]]]; [reflexivity|].
    simpl rev at 2 4. destruct (ltrim_keeps_last (rev r) c Hc) as [a' ->].
    rewrite rev_app_distr. simpl. now rewrite Hc. }
  rewrite Hl, rev_involutive, ltrim_idempotent. reflexivity.
Qed.

Lemma inHTMLData_no_lt (s : jsstring) : ~ In 60%N (Users.inHTMLData s).
Proof.
  unfold Users.inHTMLData. rewrite in_flat_map. intros [c [_ Hin]].
  destruct (c =? 60)%N eqn:Hc.
  - simpl in Hin. repeat (destruct Hin as [Hin|Hin]; [discriminate|]). exact Hin.
  - simpl in Hin. destruct Hin as [Heq|[]]. rewrite Heq, N.eqb_refl in Hc. discriminate.
Qed.

Lemma inHTMLData_unchanged (s : jsstring) :
  ~ In 60%N s -> Users.inHTMLData s = s.
Proof.
  unfold Users.inHTMLData. induction s as [|c r IH]; simpl; [reflexivity|].
  intro Hn. destruct (c =? 60)%N eqn:Hc.
  - apply N.eqb_eq in Hc. subst. exfalso. apply Hn. now left.
  - simpl. f_equal. apply IH. intro H. apply Hn. now right.
Qed.

Lemma re_letras_no_lt (s : jsstring) : Users.re_letras s = true -> ~ In 60%N s.
Proof.
  unfold Users.re_letras. destruct s as [|c r]; [discriminate|].
  intros Hall Hin. rewrite forallb_forall in Hall. now specialize (Hall _ Hin).
Qed.

Lemma re_telefono_no_lt (s : jsstring) : Users.re_telefono s = true -> ~ In 60%N s.
Proof.
  unfold Users.re_telefono. rewrite !andb_true_iff. intros [_ Hall] Hin.
  rewrite forallb_forall in Hall. now specialize (Hall _ Hin).
Qed.

(** X11.  Whatever the request holds, none of the five values the handler
    passes to the insert contains the character [<]. *)
Theorem sanitizar_no_lt (b : ExpressValidator.Body) (w : World) (c : Users.Campos) :
  fst (Users.sanitizar b w) = Return c ->
  ~ In 60%N (Users.c_nombre c)
  /\ ~ In 60%N (Users.c_apellido c)
  /\ ~ In 60%N (Users.c_email c)
  /\ (forall t, Users.c_telefono c = Some t -> ~ In 60%N t)
  /\ (forall p, Users.c_pais c = Some p -> ~ In 60%N p).
Proof.
  assert (Ho : forall f x w0 o w1, Users.opcional f x w0 = (Return o, w1) ->
                forall t, o = Some t -> ~ In 60%N t).
  { intros f x w0 o w1. unfold Users.opcional, bind, ret.
    destruct (truthy x).
    - destruct (Users.method_trim f x w0) as [[s|e] w2]; [|discriminate].
      intros H t Ht. injection H as <- _. injection Ht as <-. apply inHTMLData_no_lt.
    - intros H t Ht. injection H as <- _. discriminate. }
  unfold Users.sanitizar, bind, ret.
  destruct (Users.method_trim _ (ExpressValidator.nombre b) w) as [[n|e] w1]; [|discriminate].
  destruct (Users.method_trim _ (ExpressValidator.apellido b) w1) as [[a|e] w2]; [|discriminate].
  destruct (Users.method_trim _ (ExpressValidator.email b) w2) as [[m|e] w3]; [|discriminate].
  destruct (Users.opcional _ (ExpressValidator.telefono b) w3) as [[t|e] w4] eqn:Ht; [|discriminate].
  destruct (Users.opcional _ (ExpressValidator.pais b) w4) as [[q|e] w5] eqn:Hq; [|discriminate].
  simpl. intro H. injection H as <-. simpl.
  repeat split; try apply inHTMLData_no_lt.
  - exact (Ho _ _ _ _ _ Ht).
  - exact (Ho _ _ _ _ _ Hq).
Qed.

Lemma sanitizar_no_lt_witness :
  let c := Users.mkCampos (u16 "a&lt;b") (u16 "Pérez") (u16 "x@y.z") (Some (u16 "1 &lt; 2")) None in
  ~ In 60%N (Users.c_nombre c)
  /\ ~ In 60%N (Users.c_apellido c)
  /\ ~ In 60%N (Users.c_email c)
  /\ (forall t, Users.c_telefono c = Some t -> ~ In 60%N t)
  /\ (forall p, Users.c_pais c = Some p -> ~ In 60%N p).
Proof.
  exact (@sanitizar_no_lt
           (ExpressValidator.mkBody (VStr (u16 " a<b ")) (VStr (u16 "Pérez"))
              (VStr (u16 "x@y.z")) (VStr (u16 "1 < 2")) VNull)
           (boot env_up) _ eq_refl).
Defined.

Lemma opcional_cases (f : string) (x : value) (w : World) (o : option jsstring) :
  fst (Users.opcional f x w) = Return o ->
  (falsy x = true /\ o = None)
  \/ (exists s, x = VStr s /\ s <> [] /\ o = Some (Users.inHTMLData (trim s))).
Proof.
  unfold Users.opcional, falsy.
  destruct x as [| |[]|z|[|c r]]; simpl; try discriminate;
    try (intro H; injection H as <-; left; now split).
  - destruct (z =? 0)%Z; simpl; [|discriminate].
    intro H; injection H as <-; left; now split.
  - intro H. injection H as <-. right. exists (c :: r). repeat split. discriminate.
Qed.

Lemma opcional_returns (f : string) (x : value) (w : World) :
  falsy x = true \/ (exists s, x = VStr s) ->
  exists o, Users.opcional f x w = (Return o, w).
Proof.
  unfold Users.opcional, falsy. intros [Hf | [s ->]].
  - destruct (truthy x); [discriminate|]. now exists None.
  - destruct (truthy (VStr s)); simpl; [|now exists None].
    now exists (Some (Users.inHTMLData (trim s))).
Qed.

(** What the five constants are when they are computed. *)
Lemma sanitizar_inv (b : ExpressValidator.Body) (w : World) (c : Users.Campos) :
  fst (Users.sanitizar b w) = Return c ->
  exists n a m,
    ExpressValidator.nombre b = VStr n /\ Users.c_nombre c = Users.inHTMLData (trim n)
    /\ ExpressValidator.apellido b = VStr a /\ Users.c_apellido c = Users.inHTMLData (trim a)
    /\ ExpressValidator.email b = VStr m /\ Users.c_email c = Users.inHTMLData (trim m)
    /\ fst (Users.opcional "telefono" (ExpressValidator.telefono b) w)
       = Return (Users.c_telefono c)
    /\ fst (Users.opcional "pais" (ExpressValidator.pais b) w) = Return (Users.c_pais c).
Proof.
  assert (Hw : forall f x w0 o w1, Users.opcional f x w0 = (Return o, w1) ->
                                   fst (Users.opcional f x w) = Return o).
  { intros f x w0 o w1. unfold Users.opcional, bind, ret.
    destruct (truthy x); [|intro H; injection H as <- _; reflexivity].
    destruct x; simpl; try discriminate. intro H; injection H as <- _; reflexivity. }
  unfold Users.sanitizar, bind, ret.
  destruct (ExpressValidator.nombre b) as [| | | |n]; simpl; try discriminate.
  destruct (ExpressValidator.apellido b) as [| | | |a]; simpl; try discriminate.
  destruct (ExpressValidator.email b) as [| | | |m]; simpl; try discriminate.
  destruct (Users.opcional _ (ExpressValidator.telefono b) w) as [[t|e] w4] eqn:Ht;
    [|discriminate].
  destruct (Users.opcional _ (ExpressValidator.pais b) w4) as [[q|e] w5] eqn:Hq;
    [|discriminate].
  simpl. intro H. injection H as <-. simpl.
  exists n, a, m. repeat split. exact (Hw _ _ _ _ _ Hq).
Qed.

Section Reglas.
Variable isLength : option N -> option N -> jsstring -> bool.
Variable isEmail : jsstring -> bool.
Variable normalizeEmail : jsstring -> value.

Local Abbreviation validationResult :=
  (Users.validationResult isLength isEmail normalizeEmail).
Local Abbreviation post := (Users.post isLength isEmail normalizeEmail).
Local Abbreviation regla_nombre := (Users.regla_nombre isLength).
Local Abbreviation regla_apellido := (Users.regla_apellido isLength).
Local Abbreviation regla_email := (Users.regla_email isLength isEmail normalizeEmail).
Local Abbreviation regla_telefono := Users.regla_telefono.
Local Abbreviation regla_pais := (Users.regla_pais isLength).
Local Abbreviation run_field c v :=
  (ExpressValidator.run_stack (ExpressValidator.optional_checkFalsy c)
                              (ExpressValidator.stack c) v).
Local Abbreviation texto v := (trim (ExpressValidator.toString v)).

(** A chain of a required field: the trimmed text, and the messages of the
    two rules that fail on it. *)
Lemma required_field (p1 p2 : jsstring -> bool) (m1 m2 : jsstring) (x : value) :
  ExpressValidator.run_stack false
    [Users.sanitizer_trim; ExpressValidator.Validator p1 m1;
     ExpressValidator.Validator p2 m2] x
  = (VStr (texto x),
     if p1 (texto x) then (if p2 (texto x) then [] else [m2])
     else m1 :: (if p2 (texto x) then [] else [m2])).
Proof. reflexivity. Qed.

Lemma email_field (x : value) :
  fst (run_field regla_email x) = normalizeEmail (texto x).
Proof. reflexivity. Qed.

(** A chain of an optional field that starts with [trim]: the value is left
    as it is when it is falsy; otherwise it becomes the trimmed text, and
    the rules run on that text unless it is empty. *)
Lemma optional_field (items : list ExpressValidator.item) (x : value) :
  let r := ExpressValidator.run_stack true (Users.sanitizer_trim :: items) x in
  (falsy x = true /\ r = (x, []))
  \/ (falsy x = false /\ texto x = [] /\ r = (VStr [], []))
  \/ (falsy x = false /\ texto x <> []
      /\ r = ExpressValidator.run_stack true items (VStr (texto x))).
Proof.
  cbn zeta. destruct (falsy x) eqn:Hf.
  - left. split; [reflexivity|]. now apply run_stack_falsy.
  - right. cbn [ExpressValidator.run_stack Users.sanitizer_trim]. rewrite Hf. cbn [andb].
    destruct (texto x) as [|c r0] eqn:Ht.
    + left. repeat split. now apply run_stack_falsy.
    + right. repeat split. discriminate.
Qed.

(** X12.  For a submission whose five fields are texts or missing: after
    the validation middleware, computing the five constants throws only
    through [email].  The validated body holds the result of
    [normalizeEmail] on the trimmed text; when that result is a string the
    constants are computed, and when it is not, the handler's
    [req.body.email.trim()] throws an error without [number]. *)
Theorem validated_sanitizar (req : ExpressValidator.Body) (w : World) :
  formulario req ->
  ExpressValidator.email (fst (validationResult req))
  = normalizeEmail (texto (ExpressValidator.email req))
  /\ (forall m, normalizeEmail (texto (ExpressValidator.email req)) = VStr m ->
        exists c, Users.sanitizar (fst (validationResult req)) w = (Return c, w)
                  /\ Users.c_email c = Users.inHTMLData (trim m))
  /\ ((forall m, normalizeEmail (texto (ExpressValidator.email req)) <> VStr m) ->
      exists e, fst (Users.sanitizar (fst (validationResult req)) w) = Throw e
                /\ err_number e = None).
Proof.
  intros _.
  rewrite validationResult_fields. cbn [fst ExpressValidator.email]. rewrite email_field.
  split; [reflexivity|].
  assert (Hopt : forall items x,
            let r := ExpressValidator.run_stack true (Users.sanitizer_trim :: items) x in
            (forall y, In y items -> exists p m, y = ExpressValidator.Validator p m) ->
            falsy (fst r) = true \/ exists t, fst r = VStr t).
  { intros items x r Hval.
    destruct (optional_field items x) as [[Hf Hr]|[[_ [_ Hr]]|[_ [_ Hr]]]];
      subst r; rewrite Hr; simpl.
    - now left.
    - now left.
    - right. clear Hr. generalize (texto x). induction items as [|it rest IH]; intro t.
      + exists t. reflexivity.
      + simpl. destruct (falsy (VStr t)); [apply IH; intros; apply Hval; now right|].
        destruct (Hval it (or_introl eq_refl)) as [p [m ->]].
        destruct (ExpressValidator.run_stack true rest (VStr t)) as [v' errs] eqn:Hr.
        simpl. specialize (IH (fun y Hy => Hval y (or_intror Hy)) t).
        rewrite Hr in IH. exact IH. }
  assert (Ht := Hopt [ExpressValidator.Validator Users.re_telefono
                         (u16 "Ingrese un número de teléfono válido")]
                     (ExpressValidator.telefono req)).
  assert (Hp := Hopt [ExpressValidator.Validator (isLength None (Some 100%N))
                         (u16 "El país no puede exceder 100 caracteres");
                      ExpressValidator.Validator Users.re_letras
                         (u16 "El país solo puede contener letras y espacios")]
                     (ExpressValidator.pais req)).
  cbn zeta in Ht, Hp.
  specialize (Ht ltac:(intros y [<-|[]]; eauto)).
  specialize (Hp ltac:(intros y [<-|[<-|[]]]; eauto)).
  cbn [ExpressValidator.optional_checkFalsy ExpressValidator.stack
       Users.regla_nombre Users.regla_apellido Users.regla_telefono Users.regla_pais].
  rewrite !required_field. cbn [fst].
  set (vt := fst (ExpressValidator.run_stack true _ (ExpressValidator.telefono req))) in *.
  set (vp := fst (ExpressValidator.run_stack true _ (ExpressValidator.pais req))) in *.
  destruct (@opcional_returns "telefono" vt w Ht) as [ot Hot].
  destruct (@opcional_returns "pais" vp w Hp) as [op Hop].
  unfold Users.sanitizar, bind, ret. cbn [ExpressValidator.nombre ExpressValidator.apellido
    ExpressValidator.email ExpressValidator.telefono ExpressValidator.pais Users.method_trim].
  split.
  - intros m Hm. rewrite Hm. cbn [Users.method_trim ret]. rewrite Hot, Hop.
    eexists. split; reflexivity.
  - intro Hno.
    destruct (normalizeEmail (texto (ExpressValidator.email req))) as [| |bb|z|m];
      try (eexists; split; reflexivity).
    exfalso. now apply (Hno m).
Qed.

(** X8.  A request whose [nombre] or [apellido] is missing, [null], empty
    or white space only is answered with 400 and the world is untouched;
    the messages include that of the letters rule of the field. *)
Theorem post_required_missing (v : DbModule) (req : ExpressValidator.Body) (w : World) :
  texto (ExpressValidator.nombre req) = [] \/ texto (ExpressValidator.apellido req) = [] ->
  post v req w = (Return (respuesta_validacion (snd (validationResult req))), w)
  /\ (texto (ExpressValidator.nombre req) = [] ->
      In (u16 "El nombre solo puede contener letras y espacios") (snd (validationResult req)))
  /\ (texto (ExpressValidator.apellido req) = [] ->
      In (u16 "El apellido solo puede contener letras y espacios") (snd (validationResult req))).
Proof.
  intro Hm.
  assert (Hn : texto (ExpressValidator.nombre req) = [] ->
               In (u16 "El nombre solo puede contener letras y espacios")
                  (snd (validationResult req))).
  { intro H. rewrite validationResult_fields. cbn [snd]. apply in_or_app. left.
    cbn [ExpressValidator.optional_checkFalsy ExpressValidator.stack Users.regla_nombre].
    rewrite required_field, H. cbn [snd Users.re_letras].
    destruct (isLength _ _ _); [now left | right; now left]. }
  assert (Ha : texto (ExpressValidator.apellido req) = [] ->
               In (u16 "El apellido solo puede contener letras y espacios")
                  (snd (validationResult req))).
  { intro H. rewrite validationResult_fields. cbn [snd]. apply in_or_app. right.
    apply in_or_app. left.
    cbn [ExpressValidator.optional_checkFalsy ExpressValidator.stack Users.regla_apellido].
    rewrite required_field, H. cbn [snd Users.re_letras].
    destruct (isLength _ _ _); [now left | right; now left]. }
  split; [|split; assumption].
  rewrite post_run.
  destruct (snd (validationResult req)) as [|m ms]; [|reflexivity].
  destruct Hm as [H|H]; [destruct (Hn H) | destruct (Ha H)].
Qed.

(** The messages of a required field are empty only if the letters rule
    holds of the trimmed text. *)
Lemma required_field_valid (p1 : jsstring -> bool) (m1 m2 : jsstring) (x : value) :
  snd (ExpressValidator.run_stack false
         [Users.sanitizer_trim; ExpressValidator.Validator p1 m1;
          ExpressValidator.Validator Users.re_letras m2] x) = [] ->
  Users.re_letras (texto x) = true.
Proof.
  rewrite required_field. cbn [snd].
  destruct (p1 (texto x)); destruct (Users.re_letras (texto x)); try discriminate.
  reflexivity.
Qed.

(** X9.  In a request whose [nombre] and [apellido] are texts and which
    passes validation, both are texts of letters of the class and white
    space, not empty; what the handler inserts and echoes for them is
    exactly the trimmed text that was submitted: the second [trim] and the
    filter change nothing. *)
Theorem validated_names (req b : ExpressValidator.Body) (n a : jsstring) :
  ExpressValidator.nombre req = VStr n ->
  ExpressValidator.apellido req = VStr a ->
  validationResult req = (b, []) ->
  Users.re_letras (trim n) = true
  /\ Users.re_letras (trim a) = true
  /\ ExpressValidator.nombre b = VStr (trim n)
  /\ ExpressValidator.apellido b = VStr (trim a)
  /\ forall w c, fst (Users.sanitizar b w) = Return c ->
       Users.c_nombre c = trim n /\ Users.c_apellido c = trim a.
Proof.
  intros Hn0 Ha0. rewrite validationResult_fields. intro H.
  pose proof (f_equal fst H) as Hb. pose proof (f_equal snd H) as He.
  cbn [fst snd] in Hb, He. clear H.
  apply app_eq_nil in He. destruct He as [Hen He].
  apply app_eq_nil in He. destruct He as [Hea _].
  cbn [ExpressValidator.optional_checkFalsy ExpressValidator.stack
       Users.regla_nombre Users.regla_apellido] in Hen, Hea, Hb.
  pose proof (required_field_valid _ _ _ _ Hen) as Hn.
  pose proof (required_field_valid _ _ _ _ Hea) as Ha.
  rewrite !required_field in Hb. cbn [fst] in Hb. subst b.
  rewrite Hn0, Ha0 in *. cbn [ExpressValidator.toString] in *.
  cbn [ExpressValidator.nombre ExpressValidator.apellido].
  split; [exact Hn|]. split; [exact Ha|]. split; [reflexivity|]. split; [reflexivity|].
  intros w c Hs. destruct (sanitizar_inv _ _ Hs)
    as [n1 [a1 [m1 [Hn1 [Hn2 [Ha1 [Ha2 _]]]]]]].
  cbn [ExpressValidator.nombre ExpressValidator.apellido] in Hn1, Ha1.
  injection Hn1 as <-. injection Ha1 as <-.
  rewrite Hn2, Ha2, !trim_idempotent. split.
  - apply inHTMLData_unchanged. now apply re_letras_no_lt.
  - apply inHTMLData_unchanged. now apply re_letras_no_lt.
Qed.

(** An optional field after a validation without messages, when its last
    rule is [ok]: falsy, or the trimmed text, not empty, of which [ok]
    holds. *)
Lemma optional_field_valid (items : list ExpressValidator.item)
      (ok : jsstring -> bool) (m : jsstring) (x : value) :
  (forall t, t <> [] ->
     snd (ExpressValidator.run_stack true items (VStr t)) = [] ->
     fst (ExpressValidator.run_stack true items (VStr t)) = VStr t /\ ok t = true) ->
  let r := ExpressValidator.run_stack true (Users.sanitizer_trim :: items) x in
  snd r = [] ->
  falsy (fst r) = true
  \/ (fst r = VStr (texto x) /\ texto x <> [] /\ ok (texto x) = true).
Proof.
  intros Hitems r He.
  destruct (optional_field items x) as [[Hf Hr]|[[_ [_ Hr]]|[_ [Hne Hr]]]];
    fold r in Hr; rewrite Hr in *; cbn [fst snd] in *.
  - now left.
  - now left.
  - right. destruct (Hitems _ Hne He) as [Hv Hok]. now repeat split.
Qed.

(** X10.  In a request whose [telefono] and [pais] are texts or missing
    and which passes validation, the [telefono] that is inserted is NULL or
    the trimmed submitted text, of 7 to 20 digits, white space and [-+()],
    and the [pais] that is inserted is NULL or the trimmed submitted text,
    of letters of the class and white space. *)
Theorem validated_optionals (req b : ExpressValidator.Body) (w : World) (c : Users.Campos) :
  texto_o_ausente (ExpressValidator.telefono req) ->
  texto_o_ausente (ExpressValidator.pais req) ->
  validationResult req = (b, []) ->
  fst (Users.sanitizar b w) = Return c ->
  (Users.c_telefono c = None
   \/ (exists s, ExpressValidator.telefono req = VStr s
                 /\ Users.c_telefono c = Some (trim s)
                 /\ Users.re_telefono (trim s) = true))
  /\ (Users.c_pais c = None
      \/ (exists s, ExpressValidator.pais req = VStr s
                    /\ Users.c_pais c = Some (trim s)
                    /\ Users.re_letras (trim s) = true)).
Proof.
  intros Htel Hpais. rewrite validationResult_fields. intros H Hs.
  pose proof (f_equal fst H) as Hb. pose proof (f_equal snd H) as He.
  cbn [fst snd] in Hb, He. clear H.
  apply app_eq_nil in He. destruct He as [_ He].
  apply app_eq_nil in He. destruct He as [_ He].
  apply app_eq_nil in He. destruct He as [_ He].
  apply app_eq_nil in He. destruct He as [Het He].
  apply app_eq_nil in He. destruct He as [Hep _].
  destruct (sanitizar_inv _ _ Hs) as [n [a [m [_ [_ [_ [_ [_ [_ [Hot Hop]]]]]]]]]].
  subst b. cbn [ExpressValidator.telefono ExpressValidator.pais] in Hot, Hop.
  cbn [ExpressValidator.optional_checkFalsy ExpressValidator.stack
       Users.regla_telefono Users.regla_pais] in Het, Hep, Hot, Hop.
  split.
  - apply (optional_field_valid _ Users.re_telefono (u16 "")) in Het.
    + destruct (opcional_cases _ _ _ Hot) as [[_ Hn]|[s [Hv [Hne Ho]]]]; [now left|].
      destruct Het as [Hf|[Hv' [_ Hok]]].
      * rewrite Hv in Hf. destruct s; [contradiction | discriminate].
      * right. rewrite Hv in Hv'. injection Hv' as ->.
        destruct Htel as [Hu|[s0 Hs0]].
        -- rewrite Hu in Hne. now contradiction Hne.
        -- exists s0. rewrite Hs0 in *. cbn [ExpressValidator.toString] in *.
           split; [reflexivity|]. split; [|exact Hok].
           rewrite Ho, trim_idempotent. f_equal.
           apply inHTMLData_unchanged. now apply re_telefono_no_lt.
    + intros t Hne. cbn [ExpressValidator.run_stack andb falsy truthy].
      destruct t as [|c0 t0]; [contradiction|]. cbn [negb ExpressValidator.toString fst snd].
      destruct (Users.re_telefono (c0 :: t0)); [now split | discriminate].
  - apply (optional_field_valid _ Users.re_letras (u16 "")) in Hep.
    + destruct (opcional_cases _ _ _ Hop) as [[_ Hn]|[s [Hv [Hne Ho]]]]; [now left|].
      destruct Hep as [Hf|[Hv' [_ Hok]]].
      * rewrite Hv in Hf. destruct s; [contradiction | discriminate].
      * right. rewrite Hv in Hv'. injection Hv' as ->.
        destruct Hpais as [Hu|[s0 Hs0]].
        -- rewrite Hu in Hne. now contradiction Hne.
        -- exists s0. rewrite Hs0 in *. cbn [ExpressValidator.toString] in *.
           split; [reflexivity|]. split; [|exact Hok].
           rewrite Ho, trim_idempotent. f_equal.
           apply inHTMLData_unchanged. now apply re_letras_no_lt.
    + intros t Hne. cbn [ExpressValidator.run_stack andb falsy truthy].
      destruct t as [|c0 t0]; [contradiction|]. cbn [negb ExpressValidator.toString fst snd].
      destruct (isLength None (Some 100%N) (c0 :: t0));
        destruct (Users.re_letras (c0 :: t0)); cbn [fst snd]; try discriminate; now split.
Qed.

End Reglas.

Lemma validated_sanitizar_witness :
  exists c,
    Users.sanitizar
      (fst (Users.validationResult isLength_units isEmail_at normalizeEmail_id req_ana))
      w_started
    = (Return c, w_started)
    /\ Users.c_email c = Users.inHTMLData (trim (u16 "ana@example.com")).
Proof.
  assert (Hf : formulario req_ana).
  { unfold formulario, texto_o_ausente. simpl.
    repeat split; solve [now left | right; eexists; reflexivity]. }
  exact (proj1 (proj2 (@validated_sanitizar isLength_units isEmail_at normalizeEmail_id
                         req_ana w_started Hf))
               (u16 "ana@example.com") eq_refl).
Defined.

Lemma post_required_missing_witness :
  registrar db_retry req_vacio w_started
  = (Return (respuesta_validacion
               (snd (Users.validationResult isLength_units isEmail_at normalizeEmail_id
                                            req_vacio))),
     w_started)
  /\ In (u16 "El nombre solo puede contener letras y espacios")
        (snd (Users.validationResult isLength_units isEmail_at normalizeEmail_id req_vacio)).
Proof.
  destruct (@post_required_missing isLength_units isEmail_at normalizeEmail_id
              db_retry req_vacio w_started (or_introl eq_refl)) as [H1 [H2 _]].
  exact (conj H1 (H2 eq_refl)).
Defined.

Lemma validated_names_witness :
  let b := fst (Users.validationResult isLength_units isEmail_at normalizeEmail_id req_ana) in
  ExpressValidator.nombre b = VStr (u16 "Ana María")
  /\ forall w c, fst (Users.sanitizar b w) = Return c ->
       Users.c_nombre c = u16 "Ana María" /\ Users.c_apellido c = u16 "Núñez".
Proof.
  intro b.
  destruct (@validated_names isLength_units isEmail_at normalizeEmail_id req_ana b
              (u16 " Ana María") (u16 "Núñez") eq_refl eq_refl
              ltac:(vm_compute; reflexivity)) as [_ [_ [H1 [_ H2]]]].
  exact (conj H1 H2).
Defined.

Lemma validated_optionals_witness :
  let c := Users.mkCampos (u16 "Luis") (u16 "Pérez") (u16 "luis@example.com")
                          (Some (u16 "+504 9999-0000")) (Some (u16 "Honduras")) in
  (Users.c_telefono c = None
   \/ (exists s, ExpressValidator.telefono req_luis = VStr s
                 /\ Users.c_telefono c = Some (trim s)
                 /\ Users.re_telefono (trim s) = true))
  /\ (Users.c_pais c = None
      \/ (exists s, ExpressValidator.pais req_luis = VStr s
                    /\ Users.c_pais c = Some (trim s)
                    /\ Users.re_letras (trim s) = true)).
Proof.
  exact (@validated_optionals isLength_units isEmail_at normalizeEmail_id req_luis
           (fst (Users.validationResult isLength_units isEmail_at normalizeEmail_id req_luis))
           w_ana _
           (or_intror (ex_intro _ (u16 "+504 9999-0000") eq_refl))
           (or_intror (ex_intro _ (u16 "Honduras") eq_refl))
           ltac:(vm_compute; reflexivity) ltac:(vm_compute; reflexivity)).
Defined.

Lemma nombre_rejected_witness :
  In (u16 "El nombre solo puede contener letras y espacios")
     (snd (Users.validationResult isLength_units isEmail_at normalizeEmail_id req_juan3))
  /\ snd (Users.validationResult isLength_units isEmail_at normalizeEmail_id req_juan3) <> [].
Proof.
  apply (@nombre_rejected isLength_units isEmail_at normalizeEmail_id req_juan3 51%N).
  - vm_compute. tauto.
  - reflexivity.
Defined.

(** ** Listing: every way the handler ends *)

Lemma get_listing_witness :
  exists rows,
    Sql.usuarios (db w_luis) = Some rows
    /\ fst (Users.get db_retry w_luis) =
       Return (mkResponse 200
         (JObj [("success", JBool true);
                ("count", JNum (Z.of_nat (List.length rows)));
                ("data", JArr (map Users.fila_json (Sql.select_usuarios rows)))]%string)).
Proof.
  eexists. split; [vm_compute; reflexivity|].
  apply (@get_listing db_retry w_luis w_luis (mkPool 1 true)); vm_compute; reflexivity.
Defined.

(** The listing query never changes the database: it throws, or it returns
    the rows of the table. *)
Lemma query_select_cases (h : Pool) (w : World) :
  db (snd (query h Sql.SelectUsuarios w)) = db w
  /\ ((exists e, fst (query h Sql.SelectUsuarios w) = Throw e)
      \/ (exists rows, Sql.usuarios (db w) = Some rows
                       /\ fst (query h Sql.SelectUsuarios w)
                          = Return (Sql.Filas (Sql.select_usuarios rows)))).
Proof.
  unfold query. destruct (query_fault (env w) (queries w)) as [f|]; simpl.
  - split; [reflexivity|]. left. now exists f.
  - destruct (Sql.usuarios (db w)) as [rows|] eqn:Hu; simpl.
    + split; [reflexivity|]. right. now exists rows.
    + split; [reflexivity|]. left. now exists Sql.invalid_object_name.
Qed.

(** The listing handler, step by step. *)
Lemma get_run (v : DbModule) (w : World) :
  Users.get v w =
  match getPool v w with
  | (Throw e, w1) => get_catch e w1
  | (Return None, w1) =>
    get_catch (type_error "Cannot read properties of null (reading 'request')") w1
  | (Return (Some h), w1) =>
    match query h Sql.SelectUsuarios w1 with
    | (Throw e, w2) => get_catch e w2
    | (Return (Sql.Filas rows), w2) =>
      (Return (res_json
                 (JObj [("success", JBool true);
                        ("count", JNum (Z.of_nat (List.length rows)));
                        ("data", JArr (map Users.fila_json rows))]%string)), w2)
    | (Return _, w2) =>
      get_catch (type_error "Cannot read properties of undefined (reading 'length')") w2
    end
  end.
Proof.
  unfold Users.get, try_catch, bind at 1.
  destruct (getPool v w) as [[[h|]|e] w1]; cbn [request]; try reflexivity.
  unfold bind at 1. cbn [ret]. unfold bind at 1.
  destruct (query h Sql.SelectUsuarios w1) as [[[| |rows]|e] w2]; reflexivity.
Qed.

(** X16.  The listing handler always answers and never changes the
    database.  Either the answer is 200 with the count and the rows of the
    table, the world being the one the query left; or the [try] block threw
    an error [e] and left a world [w0], the answer is the fixed 500 body,
    and the world is [w0] with one more event, the console line that
    carries the message of [e]. *)
Theorem get_responds (v : DbModule) (w : World) :
  exists r,
    fst (Users.get v w) = Return r
    /\ db (snd (Users.get v w)) = db w
    /\ ((exists rows h w1,
           Sql.usuarios (db w) = Some rows /\ r = respuesta_listado rows
           /\ getPool v w = (Return (Some h), w1)
           /\ snd (Users.get v w) = snd (query h Sql.SelectUsuarios w1))
        \/ (exists e w0,
              listado_lanza v w e w0
              /\ r = respuesta_error_listado
              /\ snd (Users.get v w)
                 = emit (EvConsoleError [u16 "Error al obtener usuarios:";
                                         err_message e]) w0)).
Proof.
  rewrite get_run.
  pose proof (getPool_keeps_db v w) as [Hd _].
  pose proof (@getPool_returns_handle v w) as Hh.
  unfold listado_lanza.
  destruct (getPool v w) as [[[h|]|e] w1] eqn:Hg; cbn [snd] in Hd.
  - destruct (query_select_cases h w1) as [Hq Hcases].
    destruct (query h Sql.SelectUsuarios w1) as [[rs|e'] w2] eqn:Hquery;
      cbn [fst snd] in Hq, Hcases.
    + destruct Hcases as [[e He]|[rows [Hu Hr]]]; [discriminate|].
      injection Hr as ->. exists (respuesta_listado rows). cbn [fst snd].
      split; [|split; [now rewrite Hq|]].
      { unfold respuesta_listado, res_json, Sql.select_usuarios.
        rewrite (Permutation_length (order_by_desc_perm Sql.f_fecha_registro _)), length_map.
        reflexivity. }
      left. exists rows, h, w1. rewrite <- Hd.
      split; [exact Hu|]. split; [reflexivity|]. split; [reflexivity|].
      now rewrite Hquery.
    + exists respuesta_error_listado. split; [reflexivity|].
      split; [cbn [get_catch]; unfold get_catch, bind, console_error, emit; cbn [snd db];
              now rewrite Hq|].
      right. exists e', w2. split; [|split; reflexivity].
      right. exists h, w1. split; [reflexivity | exact Hquery].
  - destruct (Hh None eq_refl) as [h Hn]. discriminate Hn.
  - exists respuesta_error_listado. split; [reflexivity|].
    split; [exact Hd|].
    right. exists e, w1. split; [|split; reflexivity]. now left.
Qed.

Lemma select_usuarios_length (rows : list Sql.usuario) :
  List.length (Sql.select_usuarios rows) = List.length rows.
Proof.
  unfold Sql.select_usuarios.
  rewrite (Permutation_length (order_by_desc_perm Sql.f_fecha_registro _)).
  apply length_map.
Qed.

Lemma select_usuarios_in (rows : list Sql.usuario) (u : Sql.usuario) :
  In u rows -> In (Sql.select_list u) (Sql.select_usuarios rows).
Proof.
  intro Hin. unfold Sql.select_usuarios.
  apply (Permutation_in _ (Permutation_sym (order_by_desc_perm Sql.f_fecha_registro _))).
  now apply in_map.
Qed.

Section Registrado.
Variable isLength : option N -> option N -> jsstring -> bool.
Variable isEmail : jsstring -> bool.
Variable normalizeEmail : jsstring -> value.

Local Abbreviation validationResult :=
  (Users.validationResult isLength isEmail normalizeEmail).
Local Abbreviation post := (Users.post isLength isEmail normalizeEmail).

(** A 201 answer, and the database it leaves. *)
Lemma post_created_inv (v : DbModule) (req : ExpressValidator.Body) (w : World)
      (r : Response) :
  fst (post v req w) = Return r -> status r = 201%Z ->
  exists c rows,
    r = respuesta_creado (Sql.identity (db w)) c
    /\ Sql.usuarios (db (snd (post v req w)))
       = Some (rows ++ [fila_nueva (Sql.identity (db w)) c (GETDATE (env w) (queries w))]).
Proof.
  assert (Hc : forall e w0, fst (post_catch e w0) = Return r -> status r <> 201%Z).
  { intros e w0. destruct (post_catch_cases e w0) as [H|H]; rewrite H; cbn [fst];
      intro Hr; injection Hr as <-; discriminate. }
  rewrite post_run.
  destruct (snd (validationResult req)) as [|m ms].
  2: { cbn [fst]. intros Hr Hs. injection Hr as <-. discriminate Hs. }
  destruct (fst (Users.sanitizar (fst (validationResult req)) w)) as [c|e].
  2: { intros Hr Hs. now apply Hc in Hr. }
  pose proof (getPool_keeps_db v w) as [Hd Hq].
  pose proof (getPool_confined v w) as [Henv _].
  destruct (getPool v w) as [[[h|]|e] w1]; cbn [snd] in Hd, Hq, Henv;
    try (intros Hr Hs; now apply Hc in Hr).
  destruct (query h (Users.insert_usuario c) w1) as [[rs|e] w2] eqn:Hquery;
    try (intros Hr Hs; now apply Hc in Hr).
  cbn [fst snd]. intros Hr _. injection Hr as <-.
  destruct (query_insert_adds_row h c w1 Hquery) as [rows [Hu [Ht Hdb]]].
  exists c, rows. split; [reflexivity|]. rewrite Hdb, Hd, Hq, Henv. reflexivity.
Qed.

(** X17.  Registration and listing compose: after a 201 answer, a listing
    on the same world whose pool is acquired and whose query meets no fault
    is a 200 answer whose rows include the new one, with the identifier and
    the fields of the 201 answer and the time of the insert as text. *)
Theorem registered_row_is_listed
  (v : DbModule) (req : ExpressValidator.Body) (w w3 : World) (r : Response) (h : Pool) :
  fst (post v req w) = Return r -> status r = 201%Z ->
  getPool v (snd (post v req w)) = (Return (Some h), w3) ->
  query_fault (env w3) (queries w3) = None ->
  exists c rows,
    r = respuesta_creado (Sql.identity (db w)) c
    /\ fst (Users.get v (snd (post v req w))) = Return (respuesta_listado rows)
    /\ In (Users.fila_json
             (Sql.select_list
                (fila_nueva (Sql.identity (db w)) c (GETDATE (env w) (queries w)))))
          (map Users.fila_json (Sql.select_usuarios rows)).
Proof.
  intros Hr Hs Hg Hf.
  destruct (post_created_inv v req w Hr Hs) as [c [rows [-> Hu]]].
  exists c, (rows ++ [fila_nueva (Sql.identity (db w)) c (GETDATE (env w) (queries w))]).
  split; [reflexivity|]. split.
  - rewrite get_run, Hg. unfold query. rewrite Hf.
    pose proof (getPool_keeps_db v (snd (post v req w))) as [Hd _].
    rewrite Hg in Hd. cbn [snd] in Hd.
    cbn [Sql.run]. rewrite Hd, Hu. cbn [fst].
    unfold respuesta_listado. now rewrite select_usuarios_length.
  - apply in_map, select_usuarios_in, in_or_app. right. now left.
Qed.

End Registrado.

Lemma registered_row_is_listed_witness :
  exists c rows,
    mkResponse 201
      (JObj [("success", JBool true);
             ("message", JStr (u16 "Usuario registrado exitosamente"));
             ("data", JObj [("id", JNum 1);
                            ("nombre", JStr (u16 "Ana María"));
                            ("apellido", JStr (u16 "Núñez"));
                            ("email", JStr (u16 "ana@example.com"))])]%string)
    = respuesta_creado (Sql.identity (db w_started)) c
    /\ fst (Users.get db_retry (snd (registrar db_retry req_ana w_started)))
       = Return (respuesta_listado rows)
    /\ In (Users.fila_json
             (Sql.select_list
                (fila_nueva (Sql.identity (db w_started)) c
                            (GETDATE (env w_started) (queries w_started)))))
          (map Users.fila_json (Sql.select_usuarios rows)).
Proof.
  apply (@registered_row_is_listed isLength_units isEmail_at normalizeEmail_id
           db_retry req_ana w_started w_ana _ (mkPool 1 true));
    vm_compute; reflexivity.
Defined.

(** ** Invariants of the database *)

Section Preserves.
Variable I : Sql.database -> Prop.

Lemma preserves_keeps_db A (m : M A) : keeps_db m -> preserves I m.
Proof. intros Hk w Hi. destruct (Hk w) as [Hd _]. now rewrite Hd. Qed.

Lemma preserves_ret A (a : A) : preserves I (ret a).
Proof. intros w Hi. exact Hi. Qed.

Lemma preserves_throw A (e : JsError) : preserves I (@throw A e).
Proof. intros w Hi. exact Hi. Qed.

Lemma preserves_emit A (a : A) (ev : Event) :
  preserves I (fun w => (Return a, emit ev w)).
Proof. intros w Hi. exact Hi. Qed.

Lemma preserves_bind A B (m : M A) (f : A -> M B) :
  preserves I m -> (forall a, preserves I (f a)) -> preserves I (bind m f).
Proof.
  intros Hm Hf w Hi. unfold bind. specialize (Hm w Hi).
  destruct (m w) as [[a|e] w1]; cbn [snd] in *; [now apply Hf | exact Hm].
Qed.

Lemma preserves_try_catch A (m : M A) (h : JsError -> M A) :
  preserves I m -> (forall e, preserves I (h e)) -> preserves I (try_catch m h).
Proof.
  intros Hm Hh w Hi. unfold try_catch. specialize (Hm w Hi).
  destruct (m w) as [[a|e] w1]; cbn [snd] in *; [exact Hm | now apply Hh].
Qed.

Lemma preserves_query (h : Pool) (s : Sql.statement) :
  (forall now d, I d -> I (snd (Sql.run s now d))) -> preserves I (query h s).
Proof.
  intros Hrun w Hi. unfold query.
  destruct (query_fault (env w) (queries w)); cbn [snd db]; [exact Hi|].
  specialize (Hrun (GETDATE (env w) (queries w)) (db w) Hi).
  destruct (Sql.run s (GETDATE (env w) (queries w)) (db w)) as [r d]. exact Hrun.
Qed.

Lemma preserves_getPool (v : DbModule) : preserves I (getPool v).
Proof. apply preserves_keeps_db, getPool_keeps_db. Qed.

Lemma preserves_request (p : option Pool) : preserves I (request p).
Proof. destruct p; [apply preserves_ret | apply preserves_throw]. Qed.

(** The listing handler keeps whatever the listing query keeps. *)
Lemma preserves_get (v : DbModule) :
  (forall now d, I d -> I (snd (Sql.run Sql.SelectUsuarios now d))) ->
  preserves I (Users.get v).
Proof.
  intro Hrun. unfold Users.get. apply preserves_try_catch.
  - apply preserves_bind; [apply preserves_getPool|]. intro p.
    apply preserves_bind; [apply preserves_request|]. intro r.
    apply preserves_bind; [now apply preserves_query|]. intro rs.
    apply preserves_bind; [|intro; apply preserves_ret].
    destruct rs; [apply preserves_throw | apply preserves_throw | apply preserves_ret].
  - intro e. apply preserves_bind; [apply preserves_emit | intro; apply preserves_ret].
Qed.

(** [startServer] keeps whatever the creation of the table keeps. *)
Lemma preserves_startServer (v : DbModule) :
  (forall now d, I d -> I (snd (Sql.run Sql.CreateTableIfNotExists now d))) ->
  preserves I (Server.startServer v).
Proof.
  intro Hrun. unfold Server.startServer.
  apply preserves_bind; [intros w Hi; exact Hi|]. intro e.
  apply preserves_try_catch.
  - apply preserves_bind; [apply preserves_getPool|]. intros _.
    apply preserves_bind; [apply preserves_emit|]. intros _.
    apply preserves_bind; [apply preserves_getPool|]. intro p.
    apply preserves_bind; [apply preserves_request|]. intro r.
    apply preserves_bind; [now apply preserves_query|]. intros _.
    apply preserves_bind; [apply preserves_emit|]. intros _.
    apply preserves_emit.
  - intro err. apply preserves_bind; [apply preserves_emit|]. intros _.
    destruct (Server.is_production e); [apply preserves_emit | apply preserves_ret].
Qed.

(** The registration handler keeps whatever every insert keeps. *)
Lemma preserves_post
      (isLength : option N -> option N -> jsstring -> bool)
      (isEmail : jsstring -> bool) (normalizeEmail : jsstring -> value)
      (v : DbModule) (req : ExpressValidator.Body) :
  (forall s now d, (exists n a e t p, s = Sql.InsertUsuario n a e t p) ->
                   I d -> I (snd (Sql.run s now d))) ->
  preserves I (Users.post isLength isEmail normalizeEmail v req).
Proof.
  intro Hrun. unfold Users.post.
  destruct (Users.validationResult isLength isEmail normalizeEmail req) as [b errors].
  apply preserves_try_catch.
  - destruct (negb (Users.isEmpty errors)); [apply preserves_ret|].
    apply preserves_bind.
    { intros w Hi. now rewrite sanitizar_pure. }
    intro c. apply preserves_bind; [apply preserves_getPool|]. intro p.
    apply preserves_bind; [apply preserves_request|]. intro r.
    apply preserves_bind.
    { apply preserves_query. intros now d. apply Hrun.
      unfold Users.insert_usuario. repeat eexists. }
    intro rs. apply preserves_bind; [|intro; apply preserves_ret].
    destruct rs; [apply preserves_throw | apply preserves_ret | apply preserves_throw].
  - intro e. destruct (Users.es_duplicado e); [apply preserves_ret|].
    apply preserves_bind; [apply preserves_emit | intro; apply preserves_ret].
Qed.

End Preserves.

Lemma jsstring_eqb_eq (a b : jsstring) : jsstring_eqb a b = true <-> a = b.
Proof.
  unfold jsstring_eqb. destruct (list_eq_dec N.eq_dec a b); split; congruence.
Qed.

Lemma email_taken_false (e : jsstring) (rows : list Sql.usuario) :
  Sql.email_taken e rows = false -> ~ In e (map Sql.email rows).
Proof.
  unfold Sql.email_taken. intros Hf Hin. apply in_map_iff in Hin.
  destruct Hin as [u [Hu Hin]].
  assert (Ht : existsb (fun u0 => jsstring_eqb (Sql.email u0) e) rows = true).
  { apply existsb_exists. exists u. split; [exact Hin | now apply jsstring_eqb_eq]. }
  congruence.
Qed.

Lemma NoDup_snoc A (l : list A) (x : A) : NoDup l -> ~ In x l -> NoDup (l ++ [x]).
Proof.
  intros Hl Hx. apply (Permutation_NoDup (Permutation_cons_append l x)).
  now constructor.
Qed.

(** Every statement keeps [db_ok]. *)
Lemma run_keeps_ok (s : Sql.statement) (now : DateTime) (d : Sql.database) :
  db_ok d -> db_ok (snd (Sql.run s now d)).
Proof.
  intro Hok. pose proof Hok as [Hid Hrows]. destruct s; cbn [Sql.run].
  - destruct (Sql.usuarios d) eqn:Hu; cbn [snd]; [exact Hok|].
    split; [exact Hid|]. cbn [Sql.usuarios]. intros rows H. injection H as <-.
    repeat split; constructor.
  - destruct (Sql.usuarios d) as [rows|] eqn:Hu; cbn [snd]; [|exact Hok].
    destruct (Hrows rows eq_refl) as [He [Hi Hf]].
    destruct (Sql.email_taken email rows) eqn:Ht; cbn [snd].
    + split; [cbn [Sql.identity]; lia|]. cbn [Sql.usuarios Sql.identity].
      intros rows' H. injection H as <-. repeat split; try assumption.
      eapply Forall_impl; [|exact Hf]. cbn beta. intros u Hu'. lia.
    + split; [cbn [Sql.identity]; lia|]. cbn [Sql.usuarios Sql.identity].
      intros rows' H. injection H as <-. rewrite !map_app. cbn [map Sql.email Sql.id].
      repeat split.
      * apply NoDup_snoc; [exact He | now apply email_taken_false].
      * apply NoDup_snoc; [exact Hi|]. intro Hin. apply in_map_iff in Hin.
        destruct Hin as [u [Hu' Hin]]. rewrite Forall_forall in Hf.
        specialize (Hf u Hin). lia.
      * apply Forall_app. split.
        -- eapply Forall_impl; [|exact Hf]. cbn beta. intros u Hu'. lia.
        -- constructor; [cbn [Sql.id]; lia | constructor].
  - destruct (Sql.usuarios d) eqn:Hu; cbn [snd]; exact Hok.
Qed.

(** X18.  The table stays well formed (no email twice, no identifier
    twice, every identifier at least 1 and below the next identity value),
    and it is the storage that sees to it: every statement sent through a
    pool keeps the table well formed, the [UNIQUE] constraint rejecting an
    insert whose email is there already; hence so do the registration
    handler, the listing handler and [startServer], which reach the table
    through such statements only.  When the email that the registration
    handler is about to insert is in the table already, the handler answers
    with a status other than 201 and the rows are as they were. *)
Theorem handlers_keep_db_ok
  (isLength : option N -> option N -> jsstring -> bool)
  (isEmail : jsstring -> bool) (normalizeEmail : jsstring -> value)
  (v : DbModule) (req : ExpressValidator.Body) (w : World) :
  db_ok (db w) ->
  db_ok (db (snd (Users.post isLength isEmail normalizeEmail v req w)))
  /\ db_ok (db (snd (Users.get v w)))
  /\ db_ok (db (snd (Server.startServer v w)))
  /\ (forall h s, db_ok (db (snd (query h s w))))
  /\ (forall c rows,
        snd (Users.validationResult isLength isEmail normalizeEmail req) = [] ->
        fst (Users.sanitizar
               (fst (Users.validationResult isLength isEmail normalizeEmail req)) w)
        = Return c ->
        Sql.usuarios (db w) = Some rows ->
        Sql.email_taken (Users.c_email c) rows = true ->
        Sql.usuarios (db (snd (Users.post isLength isEmail normalizeEmail v req w)))
        = Some rows
        /\ exists r,
             fst (Users.post isLength isEmail normalizeEmail v req w) = Return r
             /\ status r <> 201%Z).
Proof.
  intro Hok. split; [|split; [|split; [|split]]].
  - apply (@preserves_post db_ok); [|exact Hok]. intros s now d _. apply run_keeps_ok.
  - apply (@preserves_get db_ok); [|exact Hok]. intros now d. apply run_keeps_ok.
  - apply (@preserves_startServer db_ok); [|exact Hok]. intros now d. apply run_keeps_ok.
  - intros h s. apply (@preserves_query db_ok h s); [|exact Hok].
    intros now d. apply run_keeps_ok.
  - intros c rows He Hs Hu Ht.
    rewrite (@post_run isLength isEmail normalizeEmail v req w), He, Hs.
    pose proof (getPool_keeps_db v w) as [Hd _].
    assert (Hc : forall e w0,
              Sql.usuarios (db w0) = Some rows ->
              Sql.usuarios (db (snd (post_catch e w0))) = Some rows
              /\ exists r, fst (post_catch e w0) = Return r /\ status r <> 201%Z).
    { intros e w0 H0. destruct (post_catch_cases e w0) as [H|H]; rewrite H;
        cbn [fst snd emit db]; (split; [exact H0|]).
      - exists respuesta_duplicado. split; [reflexivity | discriminate].
      - exists respuesta_error_interno. split; [reflexivity | discriminate]. }
    destruct (getPool v w) as [[[h|]|e] w1]; cbn [snd] in Hd.
    + destruct (query h (Users.insert_usuario c) w1) as [[rs|e] w2] eqn:Hq.
      * exfalso. destruct (query_insert_adds_row h c w1 Hq) as [rows' [Hu' [Ht' _]]].
        rewrite Hd, Hu in Hu'. injection Hu' as <-. congruence.
      * apply Hc. rewrite (query_throw_keeps_rows h _ w1 Hq), Hd. exact Hu.
    + apply Hc. now rewrite Hd.
    + apply Hc. now rewrite Hd.
Qed.

(** Ana submits her form again once Ana and Luis are registered: her email
    is in the table, the answer is 409, and the two rows are as they
    were. *)
Lemma handlers_keep_db_ok_witness :
  db_ok (db w_luis)
  /\ db_ok (db (snd (registrar db_retry req_ana w_luis)))
  /\ exists rows,
       Sql.usuarios (db w_luis) = Some rows
       /\ List.length rows = 2
       /\ Sql.email_taken (u16 "ana@example.com") rows = true
       /\ Sql.usuarios (db (snd (registrar db_retry req_ana w_luis))) = Some rows
       /\ status_of (fst (registrar db_retry req_ana w_luis)) = Some 409%Z.
Proof.
  assert (Hok : db_ok (db w_luis)).
  { split; [vm_compute; discriminate|].
    intros rows H. vm_compute in H. injection H as <-.
    cbn [map Sql.email Sql.id]. split; [|split].
    - constructor; [intros [H|[]]; discriminate H|].
      constructor; [intros []|constructor].
    - constructor; [intros [H|[]]; discriminate H|].
      constructor; [intros []|constructor].
    - constructor; [vm_compute; split; [discriminate | reflexivity]|].
      constructor; [vm_compute; split; [discriminate | reflexivity] | constructor]. }
  destruct (@handlers_keep_db_ok isLength_units isEmail_at normalizeEmail_id
              db_retry req_ana w_luis Hok) as [Hp [_ [_ [_ Hdup]]]].
  split; [exact Hok|]. split; [exact Hp|].
  eexists. split; [vm_compute; reflexivity|].
  split; [reflexivity|]. split; [vm_compute; reflexivity|].
  split; [|vm_compute; reflexivity].
  exact (proj1 (Hdup (Users.mkCampos (u16 "Ana María") (u16 "Núñez") (u16 "ana@example.com")
                                     None None) _
                     ltac:(vm_compute; reflexivity) ltac:(vm_compute; reflexivity)
                     ltac:(vm_compute; reflexivity) ltac:(vm_compute; reflexivity))).
Defined.

(** ** The server entry point: every way it ends *)






(** X20.  Starting the server never touches the rows of a table that
    exists already, whether the start-up succeeds or fails: the table is
    created only if absent. *)
Theorem startServer_keeps_rows (v : DbModule) (w : World) (rows : list Sql.usuario) :
  Sql.usuarios (db w) = Some rows ->
  Sql.usuarios (db (snd (Server.startServer v w))) = Some rows.
Proof.
  apply (@preserves_startServer (fun d => Sql.usuarios d = Some rows)).
  intros now d Hd. cbn [Sql.run]. rewrite Hd. exact Hd.
Qed.

Lemma startServer_keeps_rows_witness :
  Sql.usuarios (db (snd (Server.startServer db_retry w_luis))) = Sql.usuarios (db w_luis).
Proof.
  destruct (Sql.usuarios (db w_luis)) as [rows|] eqn:Hu; [|vm_compute in Hu; discriminate].
  exact (@startServer_keeps_rows db_retry w_luis rows Hu).
Defined.


